(** * pyoutlook: a shallow embedding of [pyoutlook.py]

    The module wraps the Outlook automation (COM) interface in three Python
    classes, [Folder], [OutlookAPI] and [Mail].  Every method is a forwarding
    call into the automation host, so the embedding has two layers:

    - the host, taken as a parameter ([ComHost]): a record of the automation
      calls the source performs, each of which may raise and may change the
      host's state;
    - the three classes, translated method by method over that interface in
      a state-and-exception monad.

    A concrete host ([Sim]) is provided to run the definitions. *)

From stdpp Require Import base option list strings gmap.
From Stdlib Require Import ZArith Lia.

#[local] Set Warnings "-register-all".
#[local] Open Scope Z_scope.
#[local] Open Scope string_scope.
#[local] Open Scope list_scope.

(** ** Python values and control flow *)

(** Exceptions.  [PyException] stands for any instance of a subclass of
    [Exception] (the host's [com_error], [AttributeError], [TypeError]),
    carrying [type(ex).__name__] and [str(ex)]; [SystemExit] derives from
    [BaseException] only, so [except Exception] does not catch it. *)
Inductive exn :=
  | PyException (kind msg : string)
  | SystemExit (msg : string).

Inductive result (A : Type) :=
  | Ok (a : A)
  | Raise (e : exn).
Arguments Ok {A} a.
Arguments Raise {A} e.

(** Computations over a state [S] that may raise. *)
Definition M (S A : Type) : Type := S -> result A * S.

Definition ret {S A} (a : A) : M S A := fun s => (Ok a, s).

Definition raise {S A} (e : exn) : M S A := fun s => (Raise e, s).

Definition bind {S A B} (m : M S A) (k : A -> M S B) : M S B :=
  fun s =>
    match m s with
    | (Ok a, s') => k a s'
    | (Raise e, s') => (Raise e, s')
    end.

(** A call that only reads the state. *)
Definition read {S A} (f : S -> result A) : M S A := fun s => (f s, s).

Notation "'let*' x ':=' m 'in' k" := (bind m (fun x => k))
  (at level 10, x pattern, m at level 100, k at level 200).

(** [for x in l: body(x)] *)
Fixpoint for_each {S A} (body : A -> M S unit) (l : list A) : M S unit :=
  match l with
  | [] => ret tt
  | x :: l' => let* _ := body x in for_each body l'
  end.

(** What a generator (or a function that prints) has produced once it has
    been driven to its end: the values yielded in order, the lines printed,
    how it ended, and the state it left. *)
Record Run (Y S : Type) := mkRun {
  yielded : list Y;
  printed : list string;
  outcome : result unit;
  final : S
}.
Arguments mkRun {Y S}.
Arguments yielded {Y S}.
Arguments printed {Y S}.
Arguments outcome {Y S}.
Arguments final {Y S}.

(** [yield y] in front of the rest of a run. *)
Definition yield {Y S} (y : Y) (r : Run Y S) : Run Y S :=
  mkRun (y :: yielded r) (printed r) (outcome r) (final r).

(** [print(line)] in front of the rest of a run. *)
Definition print {Y S} (line : string) (r : Run Y S) : Run Y S :=
  mkRun (yielded r) (line :: printed r) (outcome r) (final r).

Definition stop {Y S} (o : result unit) (s : S) : Run Y S := mkRun [] [] o s.

(** Attribute access on [None]. *)
Definition NoneType_has_no_attribute (attr : string) : exn :=
  PyException "AttributeError"
    ("'NoneType' object has no attribute '" +:+ attr +:+ "'").

(** Iteration over [None]. *)
Definition NoneType_not_iterable : exn :=
  PyException "TypeError" "'NoneType' object is not iterable".

(** Attribute read on an instance before the attribute was assigned. *)
Definition object_has_no_attribute (cls attr : string) : exn :=
  PyException "AttributeError"
    ("'" +:+ cls +:+ "' object has no attribute '" +:+ attr +:+ "'").

(** [str(b)] for a [bool], as [%s] formats it. *)
Definition str_bool (b : bool) : string := if b then "True" else "False".

(** [t] occurs inside [s]. *)
Definition includes (t s : string) : Prop := exists a b, s = a +:+ t +:+ b.

(** ** The automation host *)

(** An opaque COM reference ([win32com.client.CDispatch]). *)
Definition handle := Z.

(** The calls [Mail] forwards to a message item. *)
Inductive MailCall :=
  | Send
  | Save
  | Move (folder : handle)
  | Close (SaveMode : Z)
  | Display
  | SetUnRead (value : bool)
  | RecipientsAdd (Name : string)
  | AttachmentsAdd (Source : string)
  | AttachmentsRemove (Index : Z).

Module ExchangeUser.
Record t := mk { PrimarySmtpAddress : string; Name : string }.
End ExchangeUser.

(** A recipient of a message as the host presents it.  [str] is what
    [print(recipient)] shows; [GetExchangeUser] is
    [recipient.AddressEntry.GetExchangeUser()], which the host answers with
    [Nothing] ([None]) for an entry that is not an Exchange user. *)
Module Recipient.
Record t := mk {
  str : string;
  Resolved : bool;
  Address : string;
  GetExchangeUser : option ExchangeUser.t
}.
End Recipient.

(** A folder of the host with everything below it, as an eager traversal
    sees it.  Reading [Name] and enumerating [Folders] are host calls and may
    raise. *)
Inductive HostFolder :=
  | HFolder (Name : result string) (ref : handle)
            (Folders : result (list HostFolder)).

Definition hf_Name (c : HostFolder) : result string :=
  match c with HFolder n _ _ => n end.

Definition hf_ref (c : HostFolder) : handle :=
  match c with HFolder _ h _ => h end.

Definition hf_Folders (c : HostFolder) : result (list HostFolder) :=
  match c with HFolder _ _ fs => fs end.

(** The host interface, over the host's own state [W]. *)
Record ComHost (W : Type) := {
  (** [win32com.client.Dispatch('Outlook.Application')] *)
  Dispatch : M W handle;
  (** [outlook.GetNameSpace(name)] *)
  GetNameSpace : handle -> string -> M W handle;
  (** iterating [namespace.Folders] *)
  NamespaceFolders : handle -> W -> result (list HostFolder);
  (** [outlook.CreateItem(kind)] *)
  CreateItem : handle -> Z -> M W handle;
  (** [namespace.OpenSharedItem(path)] *)
  OpenSharedItem : handle -> string -> M W handle;
  (** [folder.Folders.Add(name)] *)
  FoldersAdd : handle -> string -> M W unit;
  (** [folder.Folders[name].Delete()] *)
  FoldersDelete : handle -> string -> M W unit;
  (** [folder.Items]: a collection with a cursor of its own *)
  Items : handle -> M W handle;
  (** [items.Count] *)
  Count : handle -> W -> result Z;
  (** [items.GetLast()]; [None] is the host's [Nothing] *)
  GetLast : handle -> M W (option handle);
  (** [items.GetPrevious()] *)
  GetPrevious : handle -> M W (option handle);
  (** a call on a message item *)
  MailInvoke : handle -> MailCall -> M W unit;
  (** iterating [item.Recipients] *)
  MailRecipients : handle -> W -> result (list Recipient.t);
  (** [psutil.pids()] and, for each [pid] in it, the outcome of
      [psutil.Process(pid).name()]: either call may raise
      ([NoSuchProcess], [AccessDenied]) *)
  ProcessNames : W -> result (list (result string))
}.
Arguments Dispatch {W}.
Arguments GetNameSpace {W}.
Arguments NamespaceFolders {W}.
Arguments CreateItem {W}.
Arguments OpenSharedItem {W}.
Arguments FoldersAdd {W}.
Arguments FoldersDelete {W}.
Arguments Items {W}.
Arguments Count {W}.
Arguments GetLast {W}.
Arguments GetPrevious {W}.
Arguments MailInvoke {W}.
Arguments MailRecipients {W}.
Arguments ProcessNames {W}.

(** ** class Mail *)

Module Mail.

(** The slots of a [Mail].  [Body] is declared in [__slots__] but never
    assigned, so it holds no value and is left out. *)
Record t := mk {
  COMObject : option handle;
  Sender : option string;
  To : option string;
  Subject : option string;
  HTMLBody : option string;
  HTMLformat : option string;
  Attachments : option (list string);
  CC : option string;
  BCC : option string
}.

(** An element of the list given to [add_attachments]: a [pathlib.Path]
    or a [str]. *)
Inductive attachment :=
  | APath (p : string)
  | AStr (s : string).

Definition __init__ (COMObject : option handle) : t :=
  {| COMObject := COMObject;
     Sender := None;
     To := Some "SampleMail@mail.com";
     Subject := Some "Sample Email";
     HTMLBody := Some "Sample test message created.";
     HTMLformat := None;
     Attachments := Some [];
     CC := Some "SampleSomebody@mail.com";
     BCC := None |}.

Definition set_COMObject (self : t) (c : option handle) : t :=
  {| COMObject := c;
     Sender := Sender self;
     To := To self;
     Subject := Subject self;
     HTMLBody := HTMLBody self;
     HTMLformat := HTMLformat self;
     Attachments := Attachments self;
     CC := CC self;
     BCC := BCC self |}.

Section Methods.
Context {W : Type} (host : ComHost W).

(** [self.COMObject.<attr>], which raises when the handle is [None]. *)
Definition COMObject_attr (self : t) (attr : string) : M W handle :=
  match COMObject self with
  | None => raise (NoneType_has_no_attribute attr)
  | Some c => ret c
  end.

Definition create (self : t) : M W t :=
  let* app := Dispatch host in
  let* item := CreateItem host app 0 in
  ret (set_COMObject self (Some item)).

Definition send (self : t) : M W unit :=
  let* c := COMObject_attr self "Send" in
  MailInvoke host c Send.

Definition save (self : t) : M W unit :=
  let* c := COMObject_attr self "Save" in
  MailInvoke host c Save.

Definition move_to (self : t) (folder : handle) : M W unit :=
  let* c := COMObject_attr self "Move" in
  MailInvoke host c (Move folder).

Definition close (self : t) : M W unit :=
  let* c := COMObject_attr self "Close" in
  MailInvoke host c (Close 1).

Definition display (self : t) : M W unit :=
  let* c := COMObject_attr self "Display" in
  MailInvoke host c Display.

Definition mark_unread (self : t) : M W unit :=
  let* c := COMObject_attr self "UnRead" in
  MailInvoke host c (SetUnRead true).

Definition add_recipients (self : t) (recipients : list string) : M W unit :=
  for_each
    (fun recipient =>
       let* c := COMObject_attr self "Recipients" in
       MailInvoke host c (RecipientsAdd recipient))
    recipients.

(** [str(attachment)] when it is a [Path], the value itself otherwise. *)
Definition attachment_source (a : attachment) : string :=
  match a with
  | APath p => p
  | AStr s => s
  end.

(** The body of the [for] loop of [add_attachments]. *)
Definition attach_all (self : t) (attachments : list attachment) : M W unit :=
  for_each
    (fun a =>
       let* c := COMObject_attr self "Attachments" in
       MailInvoke host c (AttachmentsAdd (attachment_source a)))
    attachments.

(** [attachments if attachments else self.Attachments]: [None] and the
    empty list are both falsy. *)
Definition add_attachments (self : t) (attachments : option (list attachment))
  : M W unit :=
  match attachments with
  | Some (a :: l) => attach_all self (a :: l)
  | Some [] | None =>
      match Attachments self with
      | None => raise NoneType_not_iterable
      | Some stored => attach_all self (map AStr stored)
      end
  end.

Definition remove_attachemnt (self : t) : M W unit :=
  let* c := COMObject_attr self "Attachments" in
  MailInvoke host c (AttachmentsRemove 1).

Definition check_valid_mail_address (address : Recipient.t) : bool :=
  Recipient.Resolved address.

(** The loop of [get_recipients_mail_address] over the recipients the
    host returned. *)
Fixpoint mail_address_loop (rs : list Recipient.t) (w : W) : Run string W :=
  match rs with
  | [] => stop (Ok tt) w
  | recipient :: rs' =>
      if check_valid_mail_address recipient then
        match Recipient.GetExchangeUser recipient with
        | None => stop (Raise (NoneType_has_no_attribute "PrimarySmtpAddress")) w
        | Some user =>
            yield (ExchangeUser.PrimarySmtpAddress user) (mail_address_loop rs' w)
        end
      else
        print (Recipient.str recipient +:+ " " +:+
               "addres=" +:+ Recipient.Address recipient)
              (mail_address_loop rs' w)
  end.

Definition get_recipients_mail_address (self : t) (w : W) : Run string W :=
  match COMObject self with
  | None => stop (Raise (NoneType_has_no_attribute "Recipients")) w
  | Some c =>
      match MailRecipients host c w with
      | Raise e => stop (Raise e) w
      | Ok rs => mail_address_loop rs w
      end
  end.

(** The list comprehension of [get_recipients_address]. *)
Fixpoint address_comprehension (rs : list Recipient.t) : result (list string) :=
  match rs with
  | [] => Ok []
  | recipient :: rs' =>
      if check_valid_mail_address recipient then
        match Recipient.GetExchangeUser recipient with
        | None => Raise (NoneType_has_no_attribute "Name")
        | Some user =>
            match address_comprehension rs' with
            | Raise e => Raise e
            | Ok names => Ok (ExchangeUser.Name user :: names)
            end
        end
      else address_comprehension rs'
  end.

(** [get_recipients_address] returns a list; nothing in it prints. *)
Definition get_recipients_address (self : t) (w : W) : Run string W :=
  match COMObject self with
  | None => stop (Raise (NoneType_has_no_attribute "Recipients")) w
  | Some c =>
      match MailRecipients host c w with
      | Raise e => stop (Raise e) w
      | Ok rs =>
          match address_comprehension rs with
          | Raise e => stop (Raise e) w
          | Ok names => mkRun names [] (Ok tt) w
          end
      end
  end.

End Methods.

End Mail.

(** ** class Folder *)

Module Folder.

Inductive t :=
  | mk (Name : string) (COMObject : handle) (Folders : gmap string t).

Definition Name (self : t) : string :=
  match self with mk n _ _ => n end.

Definition COMObject (self : t) : handle :=
  match self with mk _ c _ => c end.

Definition Folders (self : t) : gmap string t :=
  match self with mk _ _ fs => fs end.

(** [Folder(COMObject)]: reads [Name], then builds
    [{value.Name: Folder(COMObject=value) for value in self.COMObject.Folders}];
    the inner [fix] is that comprehension, inserting in iteration order so
    that a later folder of the same name replaces an earlier one. *)
Fixpoint __init__ (COMObject : HostFolder) : result t :=
  match COMObject with
  | HFolder Name ref Folders =>
      match Name with
      | Raise e => Raise e
      | Ok name =>
          match Folders with
          | Raise e => Raise e
          | Ok values =>
              match
                (fix comprehension (values : list HostFolder) (d : gmap string t)
                   : result (gmap string t) :=
                   match values with
                   | [] => Ok d
                   | value :: values' =>
                       match hf_Name value with
                       | Raise e => Raise e
                       | Ok key =>
                           match __init__ value with
                           | Raise e => Raise e
                           | Ok folder => comprehension values' (<[key := folder]> d)
                           end
                       end
                   end) values ∅
              with
              | Raise e => Raise e
              | Ok d => Ok (mk name ref d)
              end
          end
      end
  end.

(** [{value.Name: Folder(value) for value in values}], from a dictionary
    [d] built so far. *)
Fixpoint snapshot_from (values : list HostFolder) (d : gmap string t)
  : result (gmap string t) :=
  match values with
  | [] => Ok d
  | value :: values' =>
      match hf_Name value with
      | Raise e => Raise e
      | Ok key =>
          match __init__ value with
          | Raise e => Raise e
          | Ok folder => snapshot_from values' (<[key := folder]> d)
          end
      end
  end.

Definition snapshot (values : list HostFolder) : result (gmap string t) :=
  snapshot_from values ∅.

(** [not loops] for [loops : Optional[int]]: [None] and [0] are falsy. *)
Definition not_loops (loops : option Z) : bool :=
  match loops with
  | None => true
  | Some n => Z.eqb n 0
  end.

Section Methods.
Context {W : Type} (host : ComHost W).

(** [for _ in range(loops): yield mail; mail = Mail(folder_items.GetPrevious())],
    with [n] iterations left. *)
Fixpoint last_messages_loop (n : nat) (folder_items : handle) (mail : Mail.t)
    (w : W) : Run Mail.t W :=
  match n with
  | O => stop (Ok tt) w
  | S n' =>
      yield mail
        match GetPrevious host folder_items w with
        | (Raise e, w') => stop (Raise e) w'
        | (Ok previous, w') =>
            last_messages_loop n' folder_items (Mail.__init__ previous) w'
        end
  end.

(** The generator driven to its end by a consumer that does not touch the
    host between two yields.  [range(loops)] runs [max(loops, 0)] times. *)
Definition loop_trought_last_messages (self : t) (loops : option Z) (w : W)
  : Run Mail.t W :=
  match Items host (COMObject self) w with
  | (Raise e, w1) => stop (Raise e) w1
  | (Ok folder_items, w1) =>
      match (if not_loops loops then Count host folder_items w1
             else Ok (default 0 loops)) with
      | Raise e => stop (Raise e) w1
      | Ok loops' =>
          match GetLast host folder_items w1 with
          | (Raise e, w2) => stop (Raise e) w2
          | (Ok last, w2) =>
              last_messages_loop (Z.to_nat loops') folder_items
                                 (Mail.__init__ last) w2
          end
      end
  end.

End Methods.

End Folder.

(** ** class OutlookAPI *)

Module OutlookAPI.

(** The attributes of an instance; [None] stands for an attribute that has
    not been assigned yet (the object as [object.__new__] leaves it). *)
Record t := mk {
  outlook : option handle;
  namespace : option handle;
  accounts : option (gmap string Folder.t);
  account : option handle;
  mail : option (option Mail.t)
}.

(** What [super().__new__(cls)] returns. *)
Definition blank : t := mk None None None None None.

Definition set_outlook (v : handle) (o : t) : t :=
  mk (Some v) (namespace o) (accounts o) (account o) (mail o).

Definition set_namespace (v : handle) (o : t) : t :=
  mk (outlook o) (Some v) (accounts o) (account o) (mail o).

Definition set_accounts (v : gmap string Folder.t) (o : t) : t :=
  mk (outlook o) (namespace o) (Some v) (account o) (mail o).

Definition set_account (v : handle) (o : t) : t :=
  mk (outlook o) (namespace o) (accounts o) (Some v) (mail o).

Definition set_mail (v : option Mail.t) (o : t) : t :=
  mk (outlook o) (namespace o) (accounts o) (account o) (Some v).

(** The Python process: the host it talks to, the class attribute
    [OutlookAPI._outlookapi] ([None] while [hasattr] is false; otherwise the
    position of the instance in [instances]) and the instances of the class
    allocated so far. *)
Record Process (W : Type) := mkProcess {
  world : W;
  _outlookapi : option nat;
  instances : list t
}.
Arguments mkProcess {W}.
Arguments world {W}.
Arguments _outlookapi {W}.
Arguments instances {W}.

Section Methods.
Context {W : Type} (host : ComHost W).

(** A host call made from inside the process. *)
Definition host_call {A} (m : M W A) : M (Process W) A :=
  fun p =>
    let '(r, w') := m (world p) in
    (r, mkProcess w' (_outlookapi p) (instances p)).

(** [self.<attr> = v] *)
Definition assign (self : nat) (f : t -> t) : M (Process W) unit :=
  fun p => (Ok tt, mkProcess (world p) (_outlookapi p) (alter f self (instances p))).

(** [self.<attr>] *)
Definition attr {A} (self : nat) (get : t -> option A) (name : string)
  : M (Process W) A :=
  fun p =>
    match instances p !! self ≫= get with
    | Some v => (Ok v, p)
    | None => (Raise (object_has_no_attribute "OutlookAPI" name), p)
    end.

Definition of_result {S A} (r : result A) : M S A := fun s => (r, s).

(** [__new__]: allocates an instance only while the class has no
    [_outlookapi] attribute and returns the stored instance otherwise. *)
Definition __new__ (p : Process W) : nat * Process W :=
  match _outlookapi p with
  | Some self => (self, p)
  | None =>
      let self := length (instances p) in
      (self, mkProcess (world p) (Some self) (instances p ++ [blank]))
  end.

(** The loop of [check_outlook_is_open] over the processes: a process that
    cannot be opened or named ends the loop with psutil's exception. *)
Fixpoint any_outlook_exe (names : list (result string)) : result bool :=
  match names with
  | [] => Ok false
  | Raise e :: _ => Raise e
  | Ok name :: names' =>
      if String.eqb name "OUTLOOK.EXE" then Ok true else any_outlook_exe names'
  end.

Definition check_outlook_is_open (w : W) : result bool :=
  match ProcessNames host w with
  | Raise e => Raise e
  | Ok names => any_outlook_exe names
  end.

(** The [try] block of [__init__].  Each attribute is read back right after
    it was assigned, so the value just computed is used in its place;
    [value.name] and [value.Name] are the same automation property. *)
Definition init_try (self : nat) (account : string) : M (Process W) unit :=
  let* outlook := host_call (Dispatch host) in
  let* _ := assign self (set_outlook outlook) in
  let* namespace := host_call (GetNameSpace host outlook "MAPI") in
  let* _ := assign self (set_namespace namespace) in
  let* values := host_call (read (NamespaceFolders host namespace)) in
  let* accounts := of_result (Folder.snapshot values) in
  let* _ := assign self (set_accounts accounts) in
  let* folder :=
    match accounts !! account with
    | None => raise (NoneType_has_no_attribute "COMObject")
    | Some folder => ret folder
    end in
  let* _ := assign self (set_account (Folder.COMObject folder)) in
  assign self (set_mail None).

Definition newline : string := String (Ascii.ascii_of_nat 10) EmptyString.

(** ["Outlook open status = %s.\n%s: %s" % (open, kind, msg)] *)
Definition exit_message (open : bool) (kind msg : string) : string :=
  "Outlook open status = " +:+ str_bool open +:+ "." +:+ newline +:+
  kind +:+ ": " +:+ msg.

(** [__init__]: the [try] block, with [except Exception as ex] turning the
    exception into [SystemExit]; the message is formatted first, so an
    exception raised by [check_outlook_is_open] inside the handler is the one
    that leaves it. *)
Definition __init__ (self : nat) (account : string) : M (Process W) unit :=
  fun p =>
    match init_try self account p with
    | (Raise (PyException kind msg), p') =>
        match check_outlook_is_open (world p') with
        | Ok open => (Raise (SystemExit (exit_message open kind msg)), p')
        | Raise e => (Raise e, p')
        end
    | other => other
    end.

(** The expression [OutlookAPI(account)]: [__new__], then [__init__] on the
    instance it returned; the value is that instance. *)
Definition call (account : string) : M (Process W) nat :=
  fun p =>
    let '(self, p1) := __new__ p in
    match __init__ self account p1 with
    | (Ok _, p2) => (Ok self, p2)
    | (Raise e, p2) => (Raise e, p2)
    end.

Definition create_mail (self : nat) : M (Process W) unit :=
  let* outlook := attr self outlook "outlook" in
  let* item := host_call (CreateItem host outlook 0) in
  assign self (set_mail (Some (Mail.__init__ (Some item)))).

Definition open_saved_mail (self : nat) (path : string) : M (Process W) unit :=
  let* namespace := attr self namespace "namespace" in
  let* item := host_call (OpenSharedItem host namespace path) in
  assign self (set_mail (Some (Mail.__init__ (Some item)))).

(** [{value.name: Folder(value) for value in self.namespace.Folders}],
    assigned to [self.accounts]. *)
Definition resnapshot (self : nat) : M (Process W) unit :=
  let* namespace := attr self namespace "namespace" in
  let* values := host_call (read (NamespaceFolders host namespace)) in
  let* accounts := of_result (Folder.snapshot values) in
  assign self (set_accounts accounts).

Definition add_folder (self : nat) (new_folder_name : string) : M (Process W) unit :=
  let* account := attr self account "account" in
  let* _ := host_call (FoldersAdd host account new_folder_name) in
  resnapshot self.

Definition delete_folder (self : nat) (folder_name : string) : M (Process W) unit :=
  let* account := attr self account "account" in
  let* _ := host_call (FoldersDelete host account folder_name) in
  resnapshot self.

End Methods.

End OutlookAPI.

(** ** A host to run the classes on

    A small automation host: one namespace whose top-level folders are
    [stores], one message collection shared by every folder, one recipient
    list shared by every item.  The cursor of the collection answers
    [Nothing] when there is no item to return, which is what the Outlook
    object model documents for [GetLast] on an empty collection and for
    [GetPrevious] at its beginning. *)

Module Sim.

Record World := mkWorld {
  processes : list string;
  dispatch_error : option exn;
  dispatched : Z;
  stores : list HostFolder;
  messages : list handle;
  behind : list handle;
  recipients : list Recipient.t;
  calls : list (handle * MailCall)
}.

Definition dispatch : M World handle :=
  fun w =>
    match dispatch_error w with
    | Some e => (Raise e, w)
    | None =>
        (Ok (100 + dispatched w),
         mkWorld (processes w) (dispatch_error w) (dispatched w + 1) (stores w)
                 (messages w) (behind w) (recipients w) (calls w))
    end.

Definition with_stores (fs : list HostFolder) (w : World) : World :=
  mkWorld (processes w) (dispatch_error w) (dispatched w) fs
          (messages w) (behind w) (recipients w) (calls w).

Definition with_behind (l : list handle) (w : World) : World :=
  mkWorld (processes w) (dispatch_error w) (dispatched w) (stores w)
          (messages w) l (recipients w) (calls w).

Definition with_call (c : handle * MailCall) (w : World) : World :=
  mkWorld (processes w) (dispatch_error w) (dispatched w) (stores w)
          (messages w) (behind w) (recipients w) (c :: calls w).

Definition has_name (name : string) (c : HostFolder) : bool :=
  match hf_Name c with
  | Ok n => String.eqb n name
  | Raise _ => false
  end.

Definition children (c : HostFolder) : list HostFolder :=
  match hf_Folders c with
  | Ok fs => fs
  | Raise _ => []
  end.

Definition add_child (parent : handle) (name : string) (c : HostFolder)
  : HostFolder :=
  if Z.eqb (hf_ref c) parent then
    HFolder (hf_Name c) (hf_ref c)
            (Ok (children c ++ [HFolder (Ok name) (10 * parent + 1) (Ok [])]))
  else c.

Definition delete_child (parent : handle) (name : string) (c : HostFolder)
  : HostFolder :=
  if Z.eqb (hf_ref c) parent then
    HFolder (hf_Name c) (hf_ref c)
            (Ok (filter (fun f => has_name name f = false) (children c)))
  else c.

Definition folders_add (parent : handle) (name : string) : M World unit :=
  fun w => (Ok tt, with_stores (map (add_child parent name) (stores w)) w).

Definition folders_delete (parent : handle) (name : string) : M World unit :=
  fun w =>
    if existsb (fun c => Z.eqb (hf_ref c) parent && existsb (has_name name) (children c))
               (stores w)
    then (Ok tt, with_stores (map (delete_child parent name) (stores w)) w)
    else (Raise (PyException "com_error" "The attempted operation failed."), w).

Definition get_last (items : handle) : M World (option handle) :=
  fun w =>
    match rev (messages w) with
    | [] => (Ok None, with_behind [] w)
    | newest :: older => (Ok (Some newest), with_behind older w)
    end.

Definition get_previous (items : handle) : M World (option handle) :=
  fun w =>
    match behind w with
    | [] => (Ok None, w)
    | previous :: older => (Ok (Some previous), with_behind older w)
    end.

Definition host : ComHost World := {|
  Dispatch := dispatch;
  GetNameSpace := fun _ _ => ret 1;
  NamespaceFolders := fun _ w => Ok (stores w);
  CreateItem := fun _ _ => ret 200;
  OpenSharedItem := fun _ _ => ret 201;
  FoldersAdd := folders_add;
  FoldersDelete := folders_delete;
  Items := fun _ => ret 300;
  Count := fun _ w => Ok (Z.of_nat (length (messages w)));
  GetLast := get_last;
  GetPrevious := get_previous;
  MailInvoke := fun item c w => (Ok tt, with_call (item, c) w);
  MailRecipients := fun _ w => Ok (recipients w);
  ProcessNames := fun w => Ok (map Ok (processes w))
|}.

(** A mailbox with an inbox, two messages (7 older than 8) and two
    recipients, the second of which did not resolve. *)
Definition inbox : HostFolder := HFolder (Ok "Inbox") 11 (Ok []).

Definition mailbox : HostFolder := HFolder (Ok "me@corp.com") 10 (Ok [inbox]).

Definition alice : Recipient.t :=
  Recipient.mk "Alice" true "/o=corp/cn=alice"
               (Some (ExchangeUser.mk "alice@corp.com" "Alice A.")).

Definition ghost : Recipient.t :=
  Recipient.mk "ghost" false "ghost" None.

Definition world0 : World :=
  mkWorld ["explorer.exe"; "OUTLOOK.EXE"] None 0 [mailbox] [7; 8] []
          [alice; ghost] [].

(** The same world with the automation server unreachable. *)
Definition world_down : World :=
  mkWorld ["explorer.exe"]
          (Some (PyException "com_error" "Invalid class string"))
          0 [mailbox] [7; 8] [] [alice; ghost] [].

(** A process that has not constructed an [OutlookAPI] yet. *)
Definition process0 : OutlookAPI.Process World :=
  OutlookAPI.mkProcess world0 None [].

Definition process_down : OutlookAPI.Process World :=
  OutlookAPI.mkProcess world_down None [].

End Sim.

(** ** Vocabulary of the statements *)

Section Vocabulary.
Context {W : Type} (host : ComHost W).

(** A host call that does not raise, whatever the state it is made in. *)
Definition answers {A} (call : M W A) : Prop :=
  forall w, exists a w', call w = (Ok a, w').

(** The answers of the cursor to [n] successive [GetPrevious] calls made from
    state [w], up to the first that raises. *)
Fixpoint previous_answers (n : nat) (folder_items : handle) (w : W)
  : list (option handle) :=
  match n with
  | O => []
  | S n' =>
      match GetPrevious host folder_items w with
      | (Ok previous, w') => previous :: previous_answers n' folder_items w'
      | (Raise _, _) => []
      end
  end.

(** The first host call of [OutlookAPI.__init__] that raises, with the
    exception and the host state it leaves: the dispatch, the namespace
    lookup, the enumeration of the top-level folders, or a [Name] or
    [Folders] read while the folders are wrapped. *)
Inductive init_host_failure (w : W) (e : exn) : W -> Prop :=
  | dispatch_raises w' :
      Dispatch host w = (Raise e, w') ->
      init_host_failure w e w'
  | namespace_raises outlook w1 w' :
      Dispatch host w = (Ok outlook, w1) ->
      GetNameSpace host outlook "MAPI" w1 = (Raise e, w') ->
      init_host_failure w e w'
  | enumeration_raises outlook w1 namespace w' :
      Dispatch host w = (Ok outlook, w1) ->
      GetNameSpace host outlook "MAPI" w1 = (Ok namespace, w') ->
      NamespaceFolders host namespace w' = Raise e ->
      init_host_failure w e w'
  | wrapping_raises outlook w1 namespace w' values :
      Dispatch host w = (Ok outlook, w1) ->
      GetNameSpace host outlook "MAPI" w1 = (Ok namespace, w') ->
      NamespaceFolders host namespace w' = Ok values ->
      Folder.snapshot values = Raise e ->
      init_host_failure w e w'.

(** The line [get_recipients_mail_address] prints for a recipient. *)
Definition diagnostic (recipient : Recipient.t) : string :=
  Recipient.str recipient +:+ " " +:+ "addres=" +:+ Recipient.Address recipient.

Definition unresolved (recipient : Recipient.t) : bool :=
  negb (Recipient.Resolved recipient).

(** The address, respectively the display name, of a recipient that is an
    Exchange user. *)
Definition smtp_address (recipient : Recipient.t) : option string :=
  ExchangeUser.PrimarySmtpAddress <$> Recipient.GetExchangeUser recipient.

Definition display_name (recipient : Recipient.t) : option string :=
  ExchangeUser.Name <$> Recipient.GetExchangeUser recipient.

(** A step of the process that neither rebinds [OutlookAPI._outlookapi] nor
    allocates an instance. *)
Definition keeps_instances {A} (m : M (OutlookAPI.Process W) A) : Prop :=
  forall p r p',
    m p = (r, p') ->
    OutlookAPI._outlookapi p' = OutlookAPI._outlookapi p /\
    length (OutlookAPI.instances p') = length (OutlookAPI.instances p).

End Vocabulary.

(** ** The accessors of Mail *)

(** [str.startswith]: [sep] is a prefix of [s]. *)
Fixpoint starts_with (sep s : string) : bool :=
  match sep, s with
  | EmptyString, _ => true
  | String a sep', String b s' => if Ascii.eqb a b then starts_with sep' s' else false
  | String _ _, EmptyString => false
  end.

(** The scan of [s.split(sep)] for a non-empty [sep], left to right over
    non-overlapping occurrences: [piece] is the text gathered since the last
    separator and [skip] the number of characters of a separator just found
    that are still to be passed over. *)
Fixpoint split_scan (sep s : string) (skip : nat) (piece : string) : list string :=
  match s with
  | EmptyString => [piece]
  | String c s' =>
      match skip with
      | S skip' => split_scan sep s' skip' piece
      | O =>
          if starts_with sep s
          then piece :: split_scan sep s' (String.length sep - 1) EmptyString
          else split_scan sep s' 0 (piece +:+ String c EmptyString)
      end
  end.

(** [s.split(sep)] for [sep : str]; the empty separator is a [ValueError]. *)
Definition split (s sep : string) : result (list string) :=
  match sep with
  | EmptyString => Raise (PyException "ValueError" "empty separator")
  | String _ _ => Ok (split_scan sep s 0 EmptyString)
  end.

(** The value of [item.SentOn]. *)
Module Datetime.
Record t := mk {
  year : Z;
  month : Z;
  day : Z;
  hour : Z;
  minute : Z;
  second : Z
}.
End Datetime.

(** The character of a decimal digit. *)
Definition digit (n : Z) : Ascii.ascii := Ascii.ascii_of_nat (48 + Z.to_nat n).

(** [%d] and [%m]: two digits, zero-padded. *)
Definition two_digits (n : Z) : string :=
  String (digit (n / 10)) (String (digit (n mod 10)) EmptyString).

(** [%Y] for a year of four digits. *)
Definition four_digits (n : Z) : string :=
  String (digit (n / 1000))
    (String (digit (n / 100 mod 10))
       (String (digit (n / 10 mod 10))
          (String (digit (n mod 10)) EmptyString))).

(** [d.strftime("%d.%m.%Y")] *)
Definition strftime_d_m_Y (d : Datetime.t) : string :=
  two_digits (Datetime.day d) +:+ "." +:+ two_digits (Datetime.month d) +:+ "."
  +:+ four_digits (Datetime.year d).

(** The properties of a message item the accessors read. *)
Record ItemHost (W : Type) := {
  (** [item.Categories] *)
  Categories : handle -> W -> result string;
  (** [item.SentOn] *)
  SentOn : handle -> W -> result Datetime.t;
  (** [item.HTMLBody] *)
  HTMLBody : handle -> W -> result string
}.
Arguments Categories {W}.
Arguments SentOn {W}.
Arguments HTMLBody {W}.

Module MailAccessors.

Section Methods.
Context {W : Type} (items : ItemHost W).

(** [get_category(separator)]; the default of [separator] is ["; "]. *)
Definition get_category (self : Mail.t) (separator : string) : M W (list string) :=
  let* c := Mail.COMObject_attr self "Categories" in
  let* categories := read (Categories items c) in
  fun w => (split categories separator, w).

Definition default_separator : string := "; ".

Definition get_senton_date (self : Mail.t) : M W string :=
  let* c := Mail.COMObject_attr self "SentOn" in
  let* senton := read (SentOn items c) in
  ret (strftime_d_m_Y senton).

(** [_change_sender]: the callee [self.COMObject._oleobj_.Invoke] is
    evaluated first, then the arguments, among which [self.outlook]; [Mail]
    declares [__slots__] without an [outlook] slot, so that read raises. *)
Definition _change_sender (self : Mail.t) : M W unit :=
  let* c := Mail.COMObject_attr self "_oleobj_" in
  raise (object_has_no_attribute "Mail" "outlook").

End Methods.

End MailAccessors.

(** Item properties for the simulated host. *)
Module SimItems.

Definition host : ItemHost Sim.World := {|
  Categories := fun _ _ => Ok "Work; Personal";
  SentOn := fun _ _ => Ok (Datetime.mk 2024 3 5 9 30 0);
  HTMLBody := fun _ _ => Ok "<p>Regards</p>"
|}.

End SimItems.

(** The accessor of [OutlookAPI] that reads an item property. *)
Module OutlookAPIAccessors.

Section Methods.
Context {W : Type} (host : ComHost W) (items : ItemHost W).

(** [get_default_outlook_signature]: the item lives in a local variable,
    not in [self.mail]. *)
Definition get_default_outlook_signature (self : nat)
  : M (OutlookAPI.Process W) string :=
  let* outlook := OutlookAPI.attr self OutlookAPI.outlook "outlook" in
  let* mail := OutlookAPI.host_call (CreateItem host outlook 0) in
  let* _ := OutlookAPI.host_call (MailInvoke host mail Display) in
  let* signature := OutlookAPI.host_call (read (HTMLBody items mail)) in
  let* _ := OutlookAPI.host_call (MailInvoke host mail (Close 1)) in
  ret signature.

End Methods.

End OutlookAPIAccessors.

(** A host like [Sim.host] whose cursor raises, instead of answering
    [Nothing], when it has no item to return. *)
Module SimStrict.

Definition no_item : exn := PyException "com_error" "The operation failed.".

Definition get_last (items : handle) : M Sim.World (option handle) :=
  fun w =>
    match rev (Sim.messages w) with
    | [] => (Raise no_item, w)
    | newest :: older => (Ok (Some newest), Sim.with_behind older w)
    end.

Definition get_previous (items : handle) : M Sim.World (option handle) :=
  fun w =>
    match Sim.behind w with
    | [] => (Raise no_item, w)
    | previous :: older => (Ok (Some previous), Sim.with_behind older w)
    end.

(** Items refuse a recipient without a name. *)
Definition invoke (item : handle) (c : MailCall) : M Sim.World unit :=
  fun w =>
    match c with
    | RecipientsAdd EmptyString => (Raise no_item, w)
    | _ => MailInvoke Sim.host item c w
    end.

Definition host : ComHost Sim.World := {|
  Dispatch := Dispatch Sim.host;
  GetNameSpace := GetNameSpace Sim.host;
  NamespaceFolders := NamespaceFolders Sim.host;
  CreateItem := CreateItem Sim.host;
  OpenSharedItem := OpenSharedItem Sim.host;
  FoldersAdd := FoldersAdd Sim.host;
  FoldersDelete := FoldersDelete Sim.host;
  Items := Items Sim.host;
  Count := Count Sim.host;
  GetLast := get_last;
  GetPrevious := get_previous;
  MailInvoke := invoke;
  MailRecipients := MailRecipients Sim.host;
  ProcessNames := ProcessNames Sim.host
|}.

(** [Sim.world0] with an empty message collection. *)
Definition world_empty : Sim.World :=
  Sim.mkWorld ["OUTLOOK.EXE"] None 0 [Sim.mailbox] [] [] [] [].

End SimStrict.

(** Variations of [Sim.host] for what can go wrong around it. *)
Module SimFaulty.

(** A message arrives in the folder. *)
Definition deliver (message : handle) (w : Sim.World) : Sim.World :=
  Sim.mkWorld (Sim.processes w) (Sim.dispatch_error w) (Sim.dispatched w)
              (Sim.stores w) (Sim.messages w ++ [message]) (Sim.behind w)
              (Sim.recipients w) (Sim.calls w).

(** The collection counts its items but its cursor is out of order. *)
Definition cursor_down : ComHost Sim.World := {|
  Dispatch := Dispatch Sim.host;
  GetNameSpace := GetNameSpace Sim.host;
  NamespaceFolders := NamespaceFolders Sim.host;
  CreateItem := CreateItem Sim.host;
  OpenSharedItem := OpenSharedItem Sim.host;
  FoldersAdd := FoldersAdd Sim.host;
  FoldersDelete := FoldersDelete Sim.host;
  Items := Items Sim.host;
  Count := Count Sim.host;
  GetLast := fun _ w => (Raise SimStrict.no_item, w);
  GetPrevious := fun _ w => (Raise SimStrict.no_item, w);
  MailInvoke := MailInvoke Sim.host;
  MailRecipients := MailRecipients Sim.host;
  ProcessNames := ProcessNames Sim.host
|}.

Definition no_such_process : exn :=
  PyException "NoSuchProcess" "process no longer exists (pid=4242)".

(** A process ends between [psutil.pids()] and [psutil.Process(pid)]. *)
Definition scan_interrupted : ComHost Sim.World := {|
  Dispatch := Dispatch Sim.host;
  GetNameSpace := GetNameSpace Sim.host;
  NamespaceFolders := NamespaceFolders Sim.host;
  CreateItem := CreateItem Sim.host;
  OpenSharedItem := OpenSharedItem Sim.host;
  FoldersAdd := FoldersAdd Sim.host;
  FoldersDelete := FoldersDelete Sim.host;
  Items := Items Sim.host;
  Count := Count Sim.host;
  GetLast := GetLast Sim.host;
  GetPrevious := GetPrevious Sim.host;
  MailInvoke := MailInvoke Sim.host;
  MailRecipients := MailRecipients Sim.host;
  ProcessNames := fun _ => Ok [Ok "explorer.exe"; Raise no_such_process;
                               Ok "OUTLOOK.EXE"]
|}.

End SimFaulty.

(** ** Vocabulary of the statements, continued *)

(** [sep.join(l)] *)
Fixpoint join (sep : string) (l : list string) : string :=
  match l with
  | [] => EmptyString
  | [x] => x
  | x :: l' => x +:+ sep +:+ join sep l'
  end.

(** The number a digit character stands for. *)
Definition digit_value (c : Ascii.ascii) : Z := Z.of_nat (Ascii.nat_of_ascii c) - 48.

Definition dot : Ascii.ascii := Ascii.ascii_of_nat 46.

(** Reading back a date written as [dd.mm.yyyy]: day, month and year. *)
Definition parse_d_m_Y (s : string) : option (Z * Z * Z) :=
  match s with
  | String d1 (String d2 (String p1 (String m1 (String m2 (String p2
      (String y1 (String y2 (String y3 (String y4 EmptyString))))))))) =>
      if Ascii.eqb p1 dot && Ascii.eqb p2 dot then
        Some (10 * digit_value d1 + digit_value d2,
              10 * digit_value m1 + digit_value m2,
              1000 * digit_value y1 + 100 * digit_value y2
              + 10 * digit_value y3 + digit_value y4)
      else None
  | _ => None
  end.

(** The class attribute, when bound, refers to an allocated instance. *)
Definition Process_wf {W} (p : OutlookAPI.Process W) : Prop :=
  forall self, OutlookAPI._outlookapi p = Some self ->
               (self < length (OutlookAPI.instances p))%nat.

(** * Properties *)

(** ** The monad *)

Lemma bind_Ok {S A B} (m : M S A) (k : A -> M S B) s a s' :
  m s = (Ok a, s') -> bind m k s = k a s'.
Proof. intros H. unfold bind. now rewrite H. Qed.

Lemma bind_Raise {S A B} (m : M S A) (k : A -> M S B) s e s' :
  m s = (Raise e, s') -> bind m k s = (Raise e, s').
Proof. intros H. unfold bind. now rewrite H. Qed.

Lemma bind_inv_Ok {S A B} (m : M S A) (k : A -> M S B) s b s2 :
  bind m k s = (Ok b, s2) ->
  exists a s1, m s = (Ok a, s1) /\ k a s1 = (Ok b, s2).
Proof.
  unfold bind. destruct (m s) as [[a|e] s1]; intros H.
  - now exists a, s1.
  - discriminate.
Qed.

(** ** Folder.loop_trought_last_messages *)

Section Loop.
Context {W : Type} (host : ComHost W).
Hypothesis previous_answers_always : forall items, answers (GetPrevious host items).

Lemma last_messages_loop_run (n : nat) items mail w :
  let r := Folder.last_messages_loop host (S n) items mail w in
  outcome r = Ok tt /\
  printed r = [] /\
  yielded r = mail :: map Mail.__init__ (previous_answers host n items w).
Proof.
  revert mail w. induction n as [|n IH]; intros mail w.
  - cbn. destruct (previous_answers_always items w) as (a & w' & ->). now cbn.
  - destruct (previous_answers_always items w) as (a & w' & Hp).
    specialize (IH (Mail.__init__ a) w').
    change (Folder.last_messages_loop host (S (S n)) items mail w)
      with (yield mail
              match GetPrevious host items w with
              | (Raise e, w') => stop (Raise e) w'
              | (Ok previous, w') =>
                  Folder.last_messages_loop host (S n) items (Mail.__init__ previous) w'
              end).
    change (previous_answers host (S n) items w)
      with (match GetPrevious host items w with
            | (Ok previous, w') => previous :: previous_answers host n items w'
            | (Raise _, _) => []
            end).
    rewrite Hp. cbn zeta in IH. destruct IH as (Ho & Hpr & Hy).
    unfold yield; cbn [outcome printed yielded]. rewrite Ho, Hpr, Hy. now cbn.
Qed.

Lemma previous_answers_length (n : nat) items w :
  length (previous_answers host n items w) = n.
Proof.
  revert w. induction n as [|n IH]; intros w; cbn; [reflexivity|].
  destruct (previous_answers_always items w) as (a & w' & ->). cbn. now rewrite IH.
Qed.

Lemma last_messages_loop_length (n : nat) items mail w :
  let r := Folder.last_messages_loop host n items mail w in
  outcome r = Ok tt /\ length (yielded r) = n.
Proof.
  destruct n as [|n]; [now cbn|].
  destruct (last_messages_loop_run n items mail w) as (Ho & _ & Hy).
  cbn zeta. rewrite Ho, Hy. cbn. now rewrite length_map, previous_answers_length.
Qed.

End Loop.

Lemma falsy_limit_run {W} (host : ComHost W) (self : Folder.t) (loops : option Z)
    (w w1 : W) (items : handle) (n : Z) :
  Folder.not_loops loops = true ->
  Items host (Folder.COMObject self) w = (Ok items, w1) ->
  Count host items w1 = Ok n ->
  0 <= n ->
  (forall i, answers (GetLast host i)) ->
  (forall i, answers (GetPrevious host i)) ->
  let r := Folder.loop_trought_last_messages host self loops w in
  outcome r = Ok tt /\ Z.of_nat (length (yielded r)) = n.
Proof.
  intros Hfalsy HItems HCount Hn HLast HPrev.
  unfold Folder.loop_trought_last_messages.
  rewrite HItems, Hfalsy, HCount.
  destruct (HLast items w1) as (last & w2 & ->).
  destruct (last_messages_loop_length host HPrev (Z.to_nat n) items
              (Mail.__init__ last) w2) as (Ho & Hl).
  cbn zeta. rewrite Ho, Hl. split; [reflexivity | lia].
Qed.

Lemma sim_GetLast_answers : forall i, answers (GetLast Sim.host i).
Proof.
  intros i w. unfold GetLast, Sim.host, Sim.get_last.
  destruct (rev (Sim.messages w)); eauto.
Defined.

Lemma sim_GetPrevious_answers : forall i, answers (GetPrevious Sim.host i).
Proof.
  intros i w. unfold GetPrevious, Sim.host, Sim.get_previous.
  destruct (Sim.behind w); eauto.
Defined.

(** The simulated cursor walks the collection from its newest item to its
    oldest. *)
Lemma sim_previous_answers (n : nat) items (w : Sim.World) :
  (n <= length (Sim.behind w))%nat ->
  previous_answers Sim.host n items w = map Some (take n (Sim.behind w)).
Proof.
  revert w. induction n as [|n IH]; intros w Hn; [reflexivity|].
  cbn [previous_answers GetPrevious Sim.host]. unfold Sim.get_previous.
  destruct (Sim.behind w) as [|x older] eqn:Hb; cbn in Hn; [lia|].
  rewrite IH by (cbn; lia). reflexivity.
Qed.

Lemma COMObject_of_init (l : list (option handle)) :
  map Mail.COMObject (map Mail.__init__ l) = l.
Proof. induction l as [|c l IH]; [reflexivity|]. cbn. now rewrite IH. Qed.

(** On the simulated host, a limit within the item count yields the records
    of that many items, newest first. *)
Lemma sim_limit_within_count (self : Folder.t) (N : Z) (w : Sim.World) :
  0 < N <= Z.of_nat (length (Sim.messages w)) ->
  map Mail.COMObject
    (yielded (Folder.loop_trought_last_messages Sim.host self (Some N) w))
  = map Some (take (Z.to_nat N) (rev (Sim.messages w))).
Proof.
  intros HN. unfold Folder.loop_trought_last_messages.
  cbn [Items Sim.host ret Folder.not_loops default from_option id].
  replace (Z.eqb N 0) with false by (symmetry; apply Z.eqb_neq; lia).
  cbn [GetLast Sim.host]. unfold Sim.get_last.
  assert (Hlen : length (rev (Sim.messages w)) = length (Sim.messages w))
    by apply length_rev.
  destruct (rev (Sim.messages w)) as [|newest older]; cbn in Hlen; [lia|].
  destruct (Z.to_nat N) as [|k] eqn:Hk; [lia|].
  destruct (last_messages_loop_run Sim.host sim_GetPrevious_answers k 300
              (Mail.__init__ (Some newest)) (Sim.with_behind older w))
    as (_ & _ & Hy).
  rewrite Hy, sim_previous_answers by (cbn; lia).
  cbn [map Sim.behind Sim.with_behind take]. f_equal.
  apply (COMObject_of_init (map Some (take k older))).
Qed.

(** C1 (amended): with an explicit positive limit [N], on a host whose
    [Items], [GetLast] and [GetPrevious] calls do not raise, the generator
    ends normally after yielding exactly [N] records, whatever the item count
    of the folder: the first record wraps the answer of [GetLast] and each
    later one the answer of the next [GetPrevious]. *)
Theorem explicit_limit_yields_limit_records {W} (host : ComHost W)
    (self : Folder.t) (N : Z) (w w1 w2 : W) (items : handle)
    (last : option handle) :
  0 < N ->
  Items host (Folder.COMObject self) w = (Ok items, w1) ->
  GetLast host items w1 = (Ok last, w2) ->
  (forall i, answers (GetPrevious host i)) ->
  let r := Folder.loop_trought_last_messages host self (Some N) w in
  outcome r = Ok tt /\
  length (yielded r) = Z.to_nat N /\
  yielded r =
    map Mail.__init__ (last :: previous_answers host (Z.to_nat N - 1) items w2).
Proof.
  intros HN HItems HLast HPrev.
  unfold Folder.loop_trought_last_messages.
  rewrite HItems. cbn [Folder.not_loops default from_option id].
  replace (Z.eqb N 0) with false by (symmetry; apply Z.eqb_neq; lia).
  rewrite HLast.
  destruct (Z.to_nat N) as [|k] eqn:Hk; [lia|].
  destruct (last_messages_loop_run host HPrev k items (Mail.__init__ last) w2)
    as (Ho & _ & Hy).
  cbn zeta. rewrite Ho, Hy.
  replace (S k - 1)%nat with k by lia.
  repeat split. cbn. now rewrite length_map, (previous_answers_length host HPrev).
Qed.

(** On the simulated mailbox (two messages, 7 older than 8) a limit of 2
    yields the two records, newest first. *)
Lemma explicit_limit_yields_limit_records_witness :
  let self := Folder.mk "Inbox" 11 ∅ in
  let r := Folder.loop_trought_last_messages Sim.host self (Some 2) Sim.world0 in
  0 < 2 /\
  outcome r = Ok tt /\
  length (yielded r) = 2%nat /\
  map Mail.COMObject (yielded r) = [Some 8; Some 7].
Proof.
  cbn zeta.
  destruct (explicit_limit_yields_limit_records Sim.host (Folder.mk "Inbox" 11 ∅) 2
              Sim.world0 Sim.world0 (Sim.with_behind [7] Sim.world0) 300 (Some 8))
    as (Ho & Hl & Hy).
  - lia.
  - reflexivity.
  - reflexivity.
  - intros i w. unfold GetPrevious, Sim.host, Sim.get_previous.
    destruct (Sim.behind w); eauto.
  - split; [lia|]. split; [exact Ho|]. split; [exact Hl|].
    rewrite Hy. reflexivity.
Defined.

(** C1 (counterexample): the simulated inbox holds two messages; with the
    limit 3 the generator yields three records, not [min 3 2], the third
    wrapping the [Nothing] the cursor answers once it is exhausted. *)
Lemma explicit_limit_above_count_counterexample :
  let self := Folder.mk "Inbox" 11 ∅ in
  let r := Folder.loop_trought_last_messages Sim.host self (Some 3) Sim.world0 in
  Count Sim.host 300 Sim.world0 = Ok 2 /\
  outcome r = Ok tt /\
  length (yielded r) = 3%nat /\
  length (yielded r) <> Z.to_nat (Z.min 3 2) /\
  map Mail.COMObject (yielded r) = [Some 8; Some 7; None].
Proof.
  cbn zeta. repeat split. vm_compute. lia.
Qed.

(** C2 (amended): when the limit is omitted and the host's collection calls
    do not raise, the generator ends normally and the number of records it
    yields is the item count the collection reports when the body of the
    generator starts, in the state [w] the host is in at the first [next()],
    which need not be the state at the time of the call. *)
Theorem omitted_limit_yields_item_count {W} (host : ComHost W)
    (self : Folder.t) (w w1 : W) (items : handle) (n : Z) :
  Items host (Folder.COMObject self) w = (Ok items, w1) ->
  Count host items w1 = Ok n ->
  0 <= n ->
  (forall i, answers (GetLast host i)) ->
  (forall i, answers (GetPrevious host i)) ->
  let r := Folder.loop_trought_last_messages host self None w in
  outcome r = Ok tt /\ Z.of_nat (length (yielded r)) = n.
Proof.
  intros. now apply (falsy_limit_run host self None w w1 items n).
Qed.

Lemma omitted_limit_yields_item_count_witness :
  let self := Folder.mk "Inbox" 11 ∅ in
  let r := Folder.loop_trought_last_messages Sim.host self None Sim.world0 in
  Count Sim.host 300 Sim.world0 = Ok 2 /\
  0 <= 2 /\
  outcome r = Ok tt /\ Z.of_nat (length (yielded r)) = 2.
Proof.
  cbn zeta. split; [reflexivity|]. split; [lia|].
  apply (omitted_limit_yields_item_count Sim.host (Folder.mk "Inbox" 11 ∅)
           Sim.world0 Sim.world0 300 2).
  - reflexivity.
  - reflexivity.
  - lia.
  - exact sim_GetLast_answers.
  - exact sim_GetPrevious_answers.
Defined.

(** C2 (counterexample): calling a generator function runs none of its
    body, so [generator] below is what the call returns while the inbox
    counts two messages; a third message is delivered before the first
    [next()], and the run then yields three records, not two.  And on a host
    whose cursor raises, the folder counts two messages and the generator
    yields none. *)
Lemma omitted_limit_count_at_call_counterexample :
  let inbox := Folder.mk "Inbox" 11 ∅ in
  let generator := Folder.loop_trought_last_messages Sim.host inbox None in
  let at_call := Sim.world0 in
  let at_first_next := SimFaulty.deliver 9 Sim.world0 in
  let broken :=
    Folder.loop_trought_last_messages SimFaulty.cursor_down inbox None Sim.world0 in
  Count Sim.host 300 at_call = Ok 2 /\
  length (yielded (generator at_first_next)) = 3%nat /\
  map Mail.COMObject (yielded (generator at_first_next)) = [Some 9; Some 8; Some 7] /\
  Count SimFaulty.cursor_down 300 Sim.world0 = Ok 2 /\
  yielded broken = [] /\
  outcome broken = Raise SimStrict.no_item.
Proof. repeat split. Qed.



(** ** Mail *)

(** C3: a [Mail] constructed without a handle has no handle and carries the
    placeholder values of [__init__]: To, Subject and CC are the sample
    strings, Attachments is the empty list and BCC is [None]. *)
Theorem Mail_without_handle_defaults :
  Mail.COMObject (Mail.__init__ None) = None /\
  Mail.To (Mail.__init__ None) = Some "SampleMail@mail.com" /\
  Mail.Subject (Mail.__init__ None) = Some "Sample Email" /\
  Mail.CC (Mail.__init__ None) = Some "SampleSomebody@mail.com" /\
  Mail.Attachments (Mail.__init__ None) = Some [] /\
  Mail.BCC (Mail.__init__ None) = None.
Proof. repeat split. Qed.

(** The placeholder values do not depend on the handle. *)
Lemma Mail_init_fields (c : option handle) :
  Mail.__init__ c = Mail.set_COMObject (Mail.__init__ None) c.
Proof. reflexivity. Qed.

Section UnboundMail.
Context {W : Type} (host : ComHost W).
Variable self : Mail.t.
Hypothesis unbound : Mail.COMObject self = None.

Lemma COMObject_attr_unbound (attr : string) (w : W) :
  Mail.COMObject_attr self attr w = (Raise (NoneType_has_no_attribute attr), w).
Proof. unfold Mail.COMObject_attr. now rewrite unbound. Qed.

Lemma attach_all_unbound (attachments : list Mail.attachment) (w : W) :
  Mail.attach_all host self attachments w =
    match attachments with
    | [] => (Ok tt, w)
    | _ :: _ => (Raise (NoneType_has_no_attribute "Attachments"), w)
    end.
Proof.
  destruct attachments as [|a l]; [reflexivity|].
  unfold Mail.attach_all. cbn [for_each].
  apply bind_Raise. apply bind_Raise. apply COMObject_attr_unbound.
Qed.

End UnboundMail.

(** C8 (amended): on a [Mail] without a handle, [send], [save], [move_to],
    [close], [display], [mark_unread] and [remove_attachemnt] raise
    [AttributeError] without reaching the host; [add_recipients] and
    [add_attachments] raise exactly when the list they loop over is not
    empty, and return normally, doing nothing, when it is empty. *)
Theorem unbound_mail_operations {W} (host : ComHost W) (self : Mail.t) (w : W) :
  Mail.COMObject self = None ->
  Mail.send host self w = (Raise (NoneType_has_no_attribute "Send"), w) /\
  Mail.save host self w = (Raise (NoneType_has_no_attribute "Save"), w) /\
  (forall folder,
     Mail.move_to host self folder w = (Raise (NoneType_has_no_attribute "Move"), w)) /\
  Mail.close host self w = (Raise (NoneType_has_no_attribute "Close"), w) /\
  Mail.display host self w = (Raise (NoneType_has_no_attribute "Display"), w) /\
  Mail.mark_unread host self w = (Raise (NoneType_has_no_attribute "UnRead"), w) /\
  Mail.remove_attachemnt host self w
    = (Raise (NoneType_has_no_attribute "Attachments"), w) /\
  (forall recipients,
     Mail.add_recipients host self recipients w =
       match recipients with
       | [] => (Ok tt, w)
       | _ :: _ => (Raise (NoneType_has_no_attribute "Recipients"), w)
       end) /\
  (forall attachments,
     Mail.add_attachments host self attachments w =
       match attachments with
       | Some (_ :: _) => (Raise (NoneType_has_no_attribute "Attachments"), w)
       | Some [] | None =>
           match Mail.Attachments self with
           | None => (Raise NoneType_not_iterable, w)
           | Some [] => (Ok tt, w)
           | Some (_ :: _) => (Raise (NoneType_has_no_attribute "Attachments"), w)
           end
       end).
Proof.
  intros Hunbound.
  assert (Hattr := COMObject_attr_unbound self Hunbound (W := W)).
  repeat split; try (intros; apply bind_Raise, Hattr).
  - intros [|r l]; [reflexivity|].
    unfold Mail.add_recipients. cbn [for_each].
    apply bind_Raise, bind_Raise, Hattr.
  - intros attachments.
    assert (Hstored :
      match Mail.Attachments self with
      | Some stored => Mail.attach_all host self (map Mail.AStr stored) w
      | None => raise NoneType_not_iterable w
      end =
      match Mail.Attachments self with
      | None => (Raise NoneType_not_iterable, w)
      | Some [] => (Ok tt, w)
      | Some (_ :: _) => (Raise (NoneType_has_no_attribute "Attachments"), w)
      end).
    { destruct (Mail.Attachments self) as [[|s l]|]; try reflexivity.
      now rewrite (attach_all_unbound host self Hunbound). }
    destruct attachments as [[|a l]|]; cbn [Mail.add_attachments].
    + destruct (Mail.Attachments self) as [[|s l]|]; exact Hstored.
    + now rewrite (attach_all_unbound host self Hunbound).
    + destruct (Mail.Attachments self) as [[|s l]|]; exact Hstored.
Qed.

Lemma unbound_mail_operations_witness :
  Mail.COMObject (Mail.__init__ None) = None /\
  Mail.send Sim.host (Mail.__init__ None) Sim.world0
    = (Raise (PyException "AttributeError"
                "'NoneType' object has no attribute 'Send'"), Sim.world0) /\
  Mail.add_recipients Sim.host (Mail.__init__ None) ["bob@corp.com"] Sim.world0
    = (Raise (PyException "AttributeError"
                "'NoneType' object has no attribute 'Recipients'"), Sim.world0).
Proof.
  destruct (unbound_mail_operations Sim.host (Mail.__init__ None) Sim.world0 eq_refl)
    as (Hsend & _ & _ & _ & _ & _ & _ & Hrec & _).
  split; [reflexivity|]. split; [exact Hsend|]. exact (Hrec ["bob@corp.com"]).
Defined.

(** C8 (counterexample): on a freshly constructed [Mail()], which has no
    handle, [add_recipients([])] and [add_attachments()] return normally and
    leave the host untouched instead of failing. *)
Lemma unbound_mail_empty_lists_counterexample :
  Mail.COMObject (Mail.__init__ None) = None /\
  Mail.add_recipients Sim.host (Mail.__init__ None) [] Sim.world0
    = (Ok tt, Sim.world0) /\
  Mail.add_attachments Sim.host (Mail.__init__ None) None Sim.world0
    = (Ok tt, Sim.world0) /\
  Mail.add_attachments Sim.host (Mail.__init__ None) (Some []) Sim.world0
    = (Ok tt, Sim.world0).
Proof. repeat split. Qed.

Lemma for_each_map {S A B} (f : A -> B) (body : B -> M S unit) (l : list A) (s : S) :
  for_each body (map f l) s = for_each (fun x => body (f x)) l s.
Proof.
  revert s. induction l as [|x l IH]; intros s; [reflexivity|].
  cbn [map for_each]. unfold bind. destruct (body (f x) s) as [[[]|e] s'];
    [apply IH | reflexivity].
Qed.

(** On a bound record the loop of [add_attachments] is one [Attachments.Add]
    per element, in order. *)
Lemma attach_all_bound {W} (host : ComHost W) (self : Mail.t) (c : handle)
    (attachments : list Mail.attachment) (w : W) :
  Mail.COMObject self = Some c ->
  Mail.attach_all host self attachments w
  = for_each (fun a => MailInvoke host c (AttachmentsAdd (Mail.attachment_source a)))
             attachments w.
Proof.
  intros Hbound. unfold Mail.attach_all. revert w.
  induction attachments as [|a l IH]; intros w; [reflexivity|].
  cbn [for_each]. unfold Mail.COMObject_attr at 1. rewrite Hbound.
  unfold bind at 1 2 4. cbn [ret].
  destruct (MailInvoke host c (AttachmentsAdd (Mail.attachment_source a)) w)
    as [[[]|e] w']; [apply IH | reflexivity].
Qed.

(** C10: [add_attachments] given an empty list does what it does with the
    argument omitted, and that is not nothing: on a bound record the host
    receives one [Attachments.Add] for each entry of the list stored in
    [self.Attachments], in order (and [TypeError] is raised when that
    attribute is [None]). *)
Theorem add_attachments_empty_list_is_omitted {W} (host : ComHost W)
    (self : Mail.t) (w : W) :
  Mail.add_attachments host self (Some []) w
  = Mail.add_attachments host self None w /\
  (Mail.Attachments self = None ->
   Mail.add_attachments host self (Some []) w = (Raise NoneType_not_iterable, w)) /\
  (forall c stored,
     Mail.COMObject self = Some c ->
     Mail.Attachments self = Some stored ->
     Mail.add_attachments host self (Some []) w
     = for_each (fun source => MailInvoke host c (AttachmentsAdd source)) stored w).
Proof.
  split; [reflexivity|]. split.
  - intros Hnone. cbn [Mail.add_attachments]. now rewrite Hnone.
  - intros c stored Hbound Hstored. cbn [Mail.add_attachments]. rewrite Hstored.
    rewrite (attach_all_bound host self c _ w Hbound).
    apply (for_each_map Mail.AStr
             (fun a => MailInvoke host c (AttachmentsAdd (Mail.attachment_source a)))).
Qed.

(** A bound record whose stored list names two files: the explicit empty
    list makes the host attach both, in order. *)
Lemma add_attachments_empty_list_is_omitted_witness :
  let self :=
    Mail.mk (Some 200) None None None None None (Some ["report.pdf"; "notes.txt"])
            None None in
  Mail.COMObject self = Some 200 /\
  Mail.Attachments self = Some ["report.pdf"; "notes.txt"] /\
  Mail.add_attachments Sim.host self (Some []) Sim.world0
  = (Ok tt, Sim.with_call (200, AttachmentsAdd "notes.txt")
              (Sim.with_call (200, AttachmentsAdd "report.pdf") Sim.world0)) /\
  Mail.add_attachments Sim.host self None Sim.world0
  = (Ok tt, Sim.with_call (200, AttachmentsAdd "notes.txt")
              (Sim.with_call (200, AttachmentsAdd "report.pdf") Sim.world0)).
Proof.
  cbn zeta.
  destruct (add_attachments_empty_list_is_omitted Sim.host
              (Mail.mk (Some 200) None None None None None
                       (Some ["report.pdf"; "notes.txt"]) None None)
              Sim.world0) as (Hsame & _ & Hcalls).
  split; [reflexivity|]. split; [reflexivity|].
  assert (Hrun := Hcalls 200 ["report.pdf"; "notes.txt"] eq_refl eq_refl).
  split; [rewrite Hrun; reflexivity | rewrite <- Hsame, Hrun; reflexivity].
Defined.

(** A bound record whose stored list names one file: the explicit empty
    list attaches that file. *)
Example add_attachments_empty_list_attaches_stored :
  let self :=
    Mail.mk (Some 200) None None None None None (Some ["report.pdf"]) None None in
  Mail.add_attachments Sim.host self (Some []) Sim.world0
  = (Ok tt, Sim.with_call (200, AttachmentsAdd "report.pdf") Sim.world0).
Proof. reflexivity. Qed.

(** ** Recipients *)

Section Recipients.
Context {W : Type} (host : ComHost W).

Lemma mail_address_loop_yielded (rs : list Recipient.t) (w : W) (y : string) :
  y ∈ yielded (Mail.mail_address_loop rs w) ->
  exists r, r ∈ rs /\ Recipient.Resolved r = true /\ smtp_address r = Some y.
Proof.
  induction rs as [|r rs IH]; cbn [Mail.mail_address_loop]; intros Hy.
  - cbn in Hy. inversion Hy.
  - unfold Mail.check_valid_mail_address in Hy.
    destruct (Recipient.Resolved r) eqn:Hres.
    + destruct (Recipient.GetExchangeUser r) as [user|] eqn:Huser.
      * cbn [yield yielded] in Hy. apply elem_of_cons in Hy as [-> | Hy].
        -- exists r. split; [left|]. split; [exact Hres|].
           unfold smtp_address. now rewrite Huser.
        -- destruct (IH Hy) as (r' & Hin & Hr'). exists r'. split; [now right | exact Hr'].
      * cbn in Hy. inversion Hy.
    + cbn [print yielded] in Hy.
      destruct (IH Hy) as (r' & Hin & Hr'). exists r'. split; [now right | exact Hr'].
Qed.

Lemma mail_address_loop_printed (rs : list Recipient.t) (w : W) (line : string) :
  line ∈ printed (Mail.mail_address_loop rs w) ->
  exists r, r ∈ rs /\ Recipient.Resolved r = false /\ line = diagnostic r.
Proof.
  induction rs as [|r rs IH]; cbn [Mail.mail_address_loop]; intros Hl.
  - cbn in Hl. inversion Hl.
  - unfold Mail.check_valid_mail_address in Hl.
    destruct (Recipient.Resolved r) eqn:Hres.
    + destruct (Recipient.GetExchangeUser r) as [user|].
      * cbn [yield printed] in Hl.
        destruct (IH Hl) as (r' & Hin & Hr'). exists r'. split; [now right | exact Hr'].
      * cbn in Hl. inversion Hl.
    + cbn [print printed] in Hl. apply elem_of_cons in Hl as [-> | Hl].
      * exists r. split; [left|]. now split.
      * destruct (IH Hl) as (r' & Hin & Hr'). exists r'. split; [now right | exact Hr'].
Qed.

Lemma address_comprehension_names (rs : list Recipient.t) (names : list string)
    (y : string) :
  Mail.address_comprehension rs = Ok names ->
  y ∈ names ->
  exists r, r ∈ rs /\ Recipient.Resolved r = true /\ display_name r = Some y.
Proof.
  revert names. induction rs as [|r rs IH]; cbn [Mail.address_comprehension];
    intros names Hc Hy.
  - injection Hc as <-. inversion Hy.
  - unfold Mail.check_valid_mail_address in Hc.
    destruct (Recipient.Resolved r) eqn:Hres.
    + destruct (Recipient.GetExchangeUser r) as [user|] eqn:Huser; [|discriminate].
      destruct (Mail.address_comprehension rs) as [names'|e]; [|discriminate].
      injection Hc as <-. apply elem_of_cons in Hy as [-> | Hy].
      * exists r. split; [left|]. split; [exact Hres|].
        unfold display_name. now rewrite Huser.
      * destruct (IH names' eq_refl Hy) as (r' & Hin & Hr').
        exists r'. split; [now right | exact Hr'].
    + destruct (IH names Hc Hy) as (r' & Hin & Hr').
      exists r'. split; [now right | exact Hr'].
Qed.

(** When every resolved recipient is an Exchange user, nothing raises. *)
Lemma mail_address_loop_complete (rs : list Recipient.t) (w : W) :
  Forall (fun r => Recipient.Resolved r = true ->
                   is_Some (Recipient.GetExchangeUser r)) rs ->
  Mail.mail_address_loop rs w =
    mkRun (omap smtp_address (List.filter Recipient.Resolved rs))
          (map diagnostic (List.filter unresolved rs))
          (Ok tt) w.
Proof.
  induction 1 as [|r rs Hr _ IH]; [reflexivity|].
  cbn [Mail.mail_address_loop List.filter].
  unfold Mail.check_valid_mail_address, unresolved at 1.
  destruct (Recipient.Resolved r) eqn:Hres; cbn [negb].
  - destruct (Hr eq_refl) as [user Huser]. rewrite Huser, IH.
    assert (Hsmtp : smtp_address r = Some (ExchangeUser.PrimarySmtpAddress user))
      by (unfold smtp_address; now rewrite Huser).
    cbn [omap list_omap]. rewrite Hsmtp. reflexivity.
  - rewrite IH. reflexivity.
Qed.

Lemma address_comprehension_complete (rs : list Recipient.t) :
  Forall (fun r => Recipient.Resolved r = true ->
                   is_Some (Recipient.GetExchangeUser r)) rs ->
  Mail.address_comprehension rs =
    Ok (omap display_name (List.filter Recipient.Resolved rs)).
Proof.
  induction 1 as [|r rs Hr _ IH]; [reflexivity|].
  cbn [Mail.address_comprehension List.filter].
  unfold Mail.check_valid_mail_address.
  destruct (Recipient.Resolved r) eqn:Hres.
  - destruct (Hr eq_refl) as [user Huser]. rewrite Huser, IH.
    assert (Hname : display_name r = Some (ExchangeUser.Name user))
      by (unfold display_name; now rewrite Huser).
    cbn [omap list_omap]. rewrite Hname. reflexivity.
  - exact IH.
Qed.

End Recipients.

(** C7 (amended): for a bound record whose recipients the host enumerates,
    every entry of either result comes from a recipient that resolved, so an
    unresolved recipient contributes none; [get_recipients_mail_address]
    prints one line for each unresolved recipient it passes, while
    [get_recipients_address] prints nothing; and when every resolved
    recipient is an Exchange user both end without an error, whatever the
    number of unresolved recipients. *)
Theorem unresolved_recipients_are_skipped {W} (host : ComHost W)
    (self : Mail.t) (c : handle) (w : W) (rs : list Recipient.t) :
  Mail.COMObject self = Some c ->
  MailRecipients host c w = Ok rs ->
  let addresses := Mail.get_recipients_mail_address host self w in
  let names := Mail.get_recipients_address host self w in
  (forall y, y ∈ yielded addresses ->
     exists r, r ∈ rs /\ Recipient.Resolved r = true /\ smtp_address r = Some y) /\
  (forall y, y ∈ yielded names ->
     exists r, r ∈ rs /\ Recipient.Resolved r = true /\ display_name r = Some y) /\
  (forall line, line ∈ printed addresses ->
     exists r, r ∈ rs /\ Recipient.Resolved r = false /\ line = diagnostic r) /\
  printed names = [] /\
  (Forall (fun r => Recipient.Resolved r = true ->
                    is_Some (Recipient.GetExchangeUser r)) rs ->
   outcome addresses = Ok tt /\
   outcome names = Ok tt /\
   yielded addresses = omap smtp_address (List.filter Recipient.Resolved rs) /\
   yielded names = omap display_name (List.filter Recipient.Resolved rs) /\
   printed addresses = map diagnostic (List.filter unresolved rs)).
Proof.
  intros Hbound Hrs. cbn zeta.
  unfold Mail.get_recipients_mail_address, Mail.get_recipients_address.
  rewrite Hbound, Hrs.
  split; [intros y; apply mail_address_loop_yielded|].
  split.
  { intros y Hy.
    destruct (Mail.address_comprehension rs) as [names|e] eqn:Hc.
    - exact (address_comprehension_names rs names y Hc Hy).
    - cbn in Hy. inversion Hy. }
  split; [intros line; apply mail_address_loop_printed|].
  split; [now destruct (Mail.address_comprehension rs)|].
  intros Hall.
  rewrite (mail_address_loop_complete rs w Hall),
          (address_comprehension_complete rs Hall).
  repeat split.
Qed.

(** On the simulated item, whose recipients are Alice (resolved) and a
    recipient that did not resolve. *)
Lemma unresolved_recipients_are_skipped_witness :
  let self := Mail.__init__ (Some 200) in
  Mail.COMObject self = Some 200 /\
  MailRecipients Sim.host 200 Sim.world0 = Ok [Sim.alice; Sim.ghost] /\
  yielded (Mail.get_recipients_mail_address Sim.host self Sim.world0)
    = ["alice@corp.com"] /\
  yielded (Mail.get_recipients_address Sim.host self Sim.world0) = ["Alice A."] /\
  printed (Mail.get_recipients_mail_address Sim.host self Sim.world0)
    = ["ghost addres=ghost"] /\
  outcome (Mail.get_recipients_mail_address Sim.host self Sim.world0) = Ok tt.
Proof.
  cbn zeta.
  destruct (unresolved_recipients_are_skipped Sim.host (Mail.__init__ (Some 200)) 200
              Sim.world0 [Sim.alice; Sim.ghost] eq_refl eq_refl)
    as (_ & _ & _ & _ & Hcomplete).
  destruct Hcomplete as (Ho & _ & Hya & Hyn & Hpa).
  { repeat constructor; cbn; eauto. intros; discriminate. }
  split; [reflexivity|]. split; [reflexivity|].
  split; [rewrite Hya; reflexivity|].
  split; [rewrite Hyn; reflexivity|].
  split; [rewrite Hpa; reflexivity | exact Ho].
Defined.

(** C7 (counterexample): the simulated item has one unresolved recipient;
    [get_recipients_address] leaves it out of its result, without an error,
    but prints no diagnostic for it, where [get_recipients_mail_address]
    prints one. *)
Lemma recipient_names_print_nothing_counterexample :
  let self := Mail.__init__ (Some 200) in
  let names := Mail.get_recipients_address Sim.host self Sim.world0 in
  MailRecipients Sim.host 200 Sim.world0 = Ok [Sim.alice; Sim.ghost] /\
  Recipient.Resolved Sim.ghost = false /\
  yielded names = ["Alice A."] /\
  outcome names = Ok tt /\
  printed names = [] /\
  printed (Mail.get_recipients_mail_address Sim.host self Sim.world0)
    = [diagnostic Sim.ghost].
Proof. repeat split. Qed.

(** ** OutlookAPI *)

Lemma snapshot_from_dom (values : list HostFolder) (d0 d : gmap string Folder.t) :
  Folder.snapshot_from values d0 = Ok d ->
  forall k, k ∈ dom d <-> k ∈ dom d0 \/ exists v, v ∈ values /\ hf_Name v = Ok k.
Proof.
  revert d0. induction values as [|value values IH]; cbn [Folder.snapshot_from];
    intros d0 Hs k.
  - injection Hs as <-. split; [now left|]. intros [H | (v & Hv & _)]; [exact H|].
    inversion Hv.
  - destruct (hf_Name value) as [key|e] eqn:Hname; [|discriminate].
    destruct (Folder.__init__ value) as [folder|e]; [|discriminate].
    rewrite (IH _ Hs k), dom_insert_L, elem_of_union, elem_of_singleton.
    split.
    + intros [[-> | H] | (v & Hv & Hk)].
      * right. exists value. split; [left | exact Hname].
      * now left.
      * right. exists v. split; [now right | exact Hk].
    + intros [H | (v & Hv & Hk)]; [left; now right|].
      apply elem_of_cons in Hv as [-> | Hv].
      * left; left. congruence.
      * right. now exists v.
Qed.

(** The keys of a snapshot are the names of the folders it was taken from. *)
Lemma snapshot_dom (values : list HostFolder) (d : gmap string Folder.t) :
  Folder.snapshot values = Ok d ->
  forall k, k ∈ dom d <-> exists v, v ∈ values /\ hf_Name v = Ok k.
Proof.
  intros Hs k. rewrite (snapshot_from_dom values ∅ d Hs k), dom_empty_L.
  split; [intros [H | H]; [now apply not_elem_of_empty in H | exact H] | now right].
Qed.

Section Process.
Context {W : Type} (host : ComHost W).

Lemma attr_inv {A} self (get : OutlookAPI.t -> option A) name
    (p p' : OutlookAPI.Process W) v :
  OutlookAPI.attr self get name p = (Ok v, p') ->
  p' = p /\ OutlookAPI.instances p !! self ≫= get = Some v.
Proof.
  unfold OutlookAPI.attr.
  destruct (OutlookAPI.instances p !! self ≫= get); intros H; inversion H; now subst.
Qed.

Lemma host_call_inv {A} (m : M W A) (p p' : OutlookAPI.Process W) r :
  OutlookAPI.host_call m p = (r, p') ->
  m (OutlookAPI.world p) = (r, OutlookAPI.world p') /\
  OutlookAPI._outlookapi p' = OutlookAPI._outlookapi p /\
  OutlookAPI.instances p' = OutlookAPI.instances p.
Proof.
  unfold OutlookAPI.host_call.
  destruct (m (OutlookAPI.world p)) as [r0 w']. intros H; inversion H; now subst.
Qed.

Lemma assign_inv self f (p p' : OutlookAPI.Process W) r :
  OutlookAPI.assign self f p = (r, p') ->
  r = Ok tt /\
  OutlookAPI.world p' = OutlookAPI.world p /\
  OutlookAPI._outlookapi p' = OutlookAPI._outlookapi p /\
  OutlookAPI.instances p' = alter f self (OutlookAPI.instances p).
Proof. unfold OutlookAPI.assign. intros H; inversion H; now subst. Qed.

(** What a successful re-snapshot leaves in [self.accounts]. *)
Lemma resnapshot_Ok self (p p' : OutlookAPI.Process W) :
  OutlookAPI.resnapshot host self p = (Ok tt, p') ->
  OutlookAPI.world p' = OutlookAPI.world p /\
  exists namespace values accounts,
    OutlookAPI.instances p' !! self ≫= OutlookAPI.namespace = Some namespace /\
    NamespaceFolders host namespace (OutlookAPI.world p') = Ok values /\
    Folder.snapshot values = Ok accounts /\
    OutlookAPI.instances p' !! self ≫= OutlookAPI.accounts = Some accounts /\
    forall k, k ∈ dom accounts <-> exists v, v ∈ values /\ hf_Name v = Ok k.
Proof.
  unfold OutlookAPI.resnapshot. intros H.
  apply bind_inv_Ok in H as (namespace & p1 & Hattr & H).
  apply attr_inv in Hattr as (-> & Hns).
  apply bind_inv_Ok in H as (values & p2 & Hread & H).
  apply host_call_inv in Hread as (Hread & Hcls2 & Hinst2).
  unfold read in Hread. injection Hread as Hvalues Hworld2.
  apply bind_inv_Ok in H as (accounts & p3 & Hsnap & H).
  unfold OutlookAPI.of_result in Hsnap. injection Hsnap as Hsnap <-.
  apply assign_inv in H as (_ & Hworld & _ & Hinst).
  split; [congruence|].
  exists namespace, values, accounts.
  destruct (OutlookAPI.instances p !! self) as [o|] eqn:Ho; [|discriminate].
  rewrite Hinst, Hinst2, list_lookup_alter_eq, Ho. cbn in Hns |- *.
  split; [exact Hns|]. split; [congruence|]. split; [exact Hsnap|].
  split; [reflexivity|]. now apply snapshot_dom.
Qed.

End Process.

(** C4: when [add_folder] or [delete_folder] returns normally, [self.accounts]
    is the snapshot of the top-level folders the host enumerates in the state
    it is in at that moment: the keys of the mapping are exactly the names of
    those folders. *)
Theorem folder_mutators_resnapshot {W} (host : ComHost W) (self : nat)
    (name : string) (p p' : OutlookAPI.Process W) :
  OutlookAPI.add_folder host self name p = (Ok tt, p') \/
  OutlookAPI.delete_folder host self name p = (Ok tt, p') ->
  exists namespace values accounts,
    OutlookAPI.instances p' !! self ≫= OutlookAPI.namespace = Some namespace /\
    NamespaceFolders host namespace (OutlookAPI.world p') = Ok values /\
    Folder.snapshot values = Ok accounts /\
    OutlookAPI.instances p' !! self ≫= OutlookAPI.accounts = Some accounts /\
    forall k, k ∈ dom accounts <-> exists v, v ∈ values /\ hf_Name v = Ok k.
Proof.
  unfold OutlookAPI.add_folder, OutlookAPI.delete_folder.
  intros [H | H];
    apply bind_inv_Ok in H as (account & p1 & _ & H);
    apply bind_inv_Ok in H as ([] & p2 & _ & H);
    exact (proj2 (resnapshot_Ok host self p2 p' H)).
Qed.

(** After a successful construction on the simulated host, [add_folder]
    succeeds and the mapping is the snapshot of the host's folders. *)
Lemma folder_mutators_resnapshot_witness :
  let p1 := (OutlookAPI.call Sim.host "me@corp.com" Sim.process0).2 in
  let p2 := (OutlookAPI.add_folder Sim.host 0 "Archive" p1).2 in
  OutlookAPI.add_folder Sim.host 0 "Archive" p1 = (Ok tt, p2) /\
  exists namespace values accounts,
    OutlookAPI.instances p2 !! 0%nat ≫= OutlookAPI.namespace = Some namespace /\
    NamespaceFolders Sim.host namespace (OutlookAPI.world p2) = Ok values /\
    Folder.snapshot values = Ok accounts /\
    OutlookAPI.instances p2 !! 0%nat ≫= OutlookAPI.accounts = Some accounts /\
    forall k, k ∈ dom accounts <-> exists v, v ∈ values /\ hf_Name v = Ok k.
Proof.
  cbn zeta. split; [vm_compute; reflexivity|].
  apply (folder_mutators_resnapshot Sim.host 0 "Archive"
           (OutlookAPI.call Sim.host "me@corp.com" Sim.process0).2).
  left. vm_compute. reflexivity.
Defined.

(** The folder added under the account shows up in the new snapshot. *)
Example add_folder_shows_new_folder :
  let p1 := (OutlookAPI.call Sim.host "me@corp.com" Sim.process0).2 in
  let p2 := (OutlookAPI.add_folder Sim.host 0 "Archive" p1).2 in
  (session ← OutlookAPI.instances p2 !! 0%nat;
   accounts ← OutlookAPI.accounts session;
   mailbox ← accounts !! "me@corp.com";
   Folder.Folders mailbox !! "Archive")
  = Some (Folder.mk "Archive" 101 ∅).
Proof. vm_compute. reflexivity. Qed.

Lemma append_assoc (a b c : string) : (a +:+ b) +:+ c = a +:+ b +:+ c.
Proof.
  induction a as [|x a IH]; [reflexivity|].
  change (String x ((a +:+ b) +:+ c) = String x (a +:+ b +:+ c)). now rewrite IH.
Qed.
Lemma append_EmptyString_r (a : string) : a +:+ EmptyString = a.
Proof.
  induction a as [|x a IH]; [reflexivity|].
  change (String x (a +:+ EmptyString) = String x a). now rewrite IH.
Qed.

(** The message of the [SystemExit] shows the three values it was formatted
    from. *)
Lemma exit_message_includes (open : bool) (kind msg : string) :
  includes (str_bool open) (OutlookAPI.exit_message open kind msg) /\
  includes kind (OutlookAPI.exit_message open kind msg) /\
  includes msg (OutlookAPI.exit_message open kind msg).
Proof.
  unfold OutlookAPI.exit_message, includes. repeat split.
  - now exists "Outlook open status = ", ("." +:+ OutlookAPI.newline +:+ kind +:+ ": " +:+ msg).
  - exists ("Outlook open status = " +:+ str_bool open +:+ "." +:+ OutlookAPI.newline),
           (": " +:+ msg).
    now rewrite !append_assoc.
  - exists ("Outlook open status = " +:+ str_bool open +:+ "." +:+ OutlookAPI.newline
            +:+ kind +:+ ": "), EmptyString.
    now rewrite append_EmptyString_r, !append_assoc.
Qed.

Section Construction.
Context {W : Type} (host : ComHost W).

Lemma host_call_eq {A} (m : M W A) (p : OutlookAPI.Process W) r w' :
  m (OutlookAPI.world p) = (r, w') ->
  OutlookAPI.host_call m p
  = (r, OutlookAPI.mkProcess w' (OutlookAPI._outlookapi p) (OutlookAPI.instances p)).
Proof. unfold OutlookAPI.host_call. now intros ->. Qed.

(** A host call that raises makes the [try] block raise the same exception
    and leaves the host in the state the call left it in. *)
Lemma init_try_host_failure self account (p : OutlookAPI.Process W) e w' :
  init_host_failure host (OutlookAPI.world p) e w' ->
  exists p', OutlookAPI.init_try host self account p = (Raise e, p') /\
             OutlookAPI.world p' = w'.
Proof.
  intros Hfail. unfold OutlookAPI.init_try.
  destruct Hfail as [w' Hd | outlook w1 w' Hd Hn | outlook w1 namespace w' Hd Hn He
                    | outlook w1 namespace w' values Hd Hn He Hs].
  - eexists. split; [apply bind_Raise, host_call_eq, Hd | reflexivity].
  - eexists. split.
    { erewrite bind_Ok by (apply host_call_eq, Hd).
      erewrite bind_Ok by reflexivity.
      apply bind_Raise, host_call_eq. exact Hn. }
    reflexivity.
  - eexists. split.
    { erewrite bind_Ok by (apply host_call_eq, Hd).
      erewrite bind_Ok by reflexivity.
      erewrite bind_Ok by (apply host_call_eq; exact Hn).
      erewrite bind_Ok by reflexivity.
      apply bind_Raise, host_call_eq. unfold read. cbn. now rewrite He. }
    reflexivity.
  - eexists. split.
    { erewrite bind_Ok by (apply host_call_eq, Hd).
      erewrite bind_Ok by reflexivity.
      erewrite bind_Ok by (apply host_call_eq; exact Hn).
      erewrite bind_Ok by reflexivity.
      erewrite bind_Ok by (apply host_call_eq; unfold read; cbn; now rewrite He).
      apply bind_Raise. unfold OutlookAPI.of_result. now rewrite Hs. }
    reflexivity.
Qed.

End Construction.

(** C6 (amended): when a host call made by [__init__] raises an exception
    [kind: msg] and the process scan of [check_outlook_is_open] completes
    with the answer [open], the construction [OutlookAPI(account)] raises
    [SystemExit], which [except Exception] does not catch, and its message
    shows [open], the exception's type name and its text. *)
Theorem construction_failure_is_fatal {W} (host : ComHost W) (account : string)
    (p : OutlookAPI.Process W) (kind msg : string) (w' : W) (open : bool) :
  init_host_failure host (OutlookAPI.world p) (PyException kind msg) w' ->
  OutlookAPI.check_outlook_is_open host w' = Ok open ->
  let message := OutlookAPI.exit_message open kind msg in
  (OutlookAPI.call host account p).1 = Raise (SystemExit message) /\
  OutlookAPI.world (OutlookAPI.call host account p).2 = w' /\
  includes (str_bool open) message /\
  includes kind message /\
  includes msg message.
Proof.
  intros Hfail Hopen. cbn zeta.
  assert (Hcall :
    (OutlookAPI.call host account p).1
      = Raise (SystemExit (OutlookAPI.exit_message open kind msg)) /\
    OutlookAPI.world (OutlookAPI.call host account p).2 = w').
  { unfold OutlookAPI.call.
    destruct (OutlookAPI.__new__ p) as [self p1] eqn:Hnew.
    assert (Hworld : OutlookAPI.world p1 = OutlookAPI.world p).
    { unfold OutlookAPI.__new__ in Hnew.
      destruct (OutlookAPI._outlookapi p); inversion Hnew; reflexivity. }
    rewrite <- Hworld in Hfail.
    destruct (init_try_host_failure host self account p1 _ w' Hfail)
      as (p' & Htry & Hw).
    unfold OutlookAPI.__init__. rewrite Htry, Hw, Hopen. cbn. now rewrite Hw. }
  destruct Hcall as (Hres & Hw).
  split; [exact Hres|]. split; [exact Hw|]. apply exit_message_includes.
Qed.

(** With the automation server unreachable and no Outlook process running,
    construction exits with the formatted message. *)
Lemma construction_failure_is_fatal_witness :
  init_host_failure Sim.host Sim.world_down
    (PyException "com_error" "Invalid class string") Sim.world_down /\
  OutlookAPI.check_outlook_is_open Sim.host Sim.world_down = Ok false /\
  (OutlookAPI.call Sim.host "me@corp.com" Sim.process_down).1
    = Raise (SystemExit
               (OutlookAPI.exit_message false "com_error" "Invalid class string")).
Proof.
  assert (Hfail : init_host_failure Sim.host (OutlookAPI.world Sim.process_down)
                    (PyException "com_error" "Invalid class string") Sim.world_down)
    by (apply dispatch_raises; reflexivity).
  split; [exact Hfail|]. split; [reflexivity|].
  exact (proj1 (construction_failure_is_fatal Sim.host "me@corp.com"
                  Sim.process_down "com_error" "Invalid class string"
                  Sim.world_down false Hfail eq_refl)).
Defined.

(** C6 (counterexample): the automation server is unreachable, so the
    dispatch raises, and a process ends while [check_outlook_is_open] scans
    the process list inside the handler: the construction leaves with
    psutil's [NoSuchProcess], an [Exception] a caller can catch, and no
    [SystemExit] is raised. *)
Lemma construction_failure_scan_raises_counterexample :
  init_host_failure SimFaulty.scan_interrupted Sim.world_down
    (PyException "com_error" "Invalid class string") Sim.world_down /\
  OutlookAPI.check_outlook_is_open SimFaulty.scan_interrupted Sim.world_down
    = Raise SimFaulty.no_such_process /\
  (OutlookAPI.call SimFaulty.scan_interrupted "me@corp.com" Sim.process_down).1
    = Raise (PyException "NoSuchProcess" "process no longer exists (pid=4242)") /\
  forall message,
    (OutlookAPI.call SimFaulty.scan_interrupted "me@corp.com" Sim.process_down).1
    <> Raise (SystemExit message).
Proof.
  split; [apply dispatch_raises; reflexivity|].
  split; [reflexivity|]. split; [reflexivity|]. intros message. discriminate.
Qed.

(** ** The singleton *)

Section Singleton.
Context {W : Type} (host : ComHost W).

Lemma keeps_bind {A B} (m : M (OutlookAPI.Process W) A)
    (k : A -> M (OutlookAPI.Process W) B) :
  keeps_instances m -> (forall a, keeps_instances (k a)) ->
  keeps_instances (bind m k).
Proof.
  intros Hm Hk p r p' H. unfold bind in H.
  destruct (m p) as [[a|e] p1] eqn:Hmp.
  - destruct (Hm _ _ _ Hmp) as (Hc1 & Hl1).
    destruct (Hk a _ _ _ H) as (Hc2 & Hl2). split; congruence.
  - inversion H; subst. exact (Hm _ _ _ Hmp).
Qed.

Lemma keeps_host_call {A} (m : M W A) : keeps_instances (OutlookAPI.host_call m).
Proof.
  intros p r p' H. apply host_call_inv in H as (_ & Hc & Hi). split; congruence.
Qed.

Lemma keeps_assign self f : keeps_instances (W := W) (OutlookAPI.assign self f).
Proof.
  intros p r p' H. apply assign_inv in H as (_ & _ & Hc & Hi).
  split; [exact Hc|]. now rewrite Hi, length_alter.
Qed.

Lemma keeps_state {A} (m : M (OutlookAPI.Process W) A) :
  (forall p, (m p).2 = p) -> keeps_instances m.
Proof.
  intros Hm p r p' H. specialize (Hm p). rewrite H in Hm. cbn in Hm. now subst.
Qed.

Lemma keeps_init_try self account :
  keeps_instances (OutlookAPI.init_try host self account).
Proof.
  unfold OutlookAPI.init_try.
  repeat (apply keeps_bind; [|intros ?]);
    try apply keeps_host_call; try apply keeps_assign.
  - apply keeps_state. reflexivity.
  - apply keeps_state. intros p. now destruct (_ !! account).
Qed.

Lemma keeps_init self account :
  keeps_instances (OutlookAPI.__init__ host self account).
Proof.
  intros p r p' H. unfold OutlookAPI.__init__ in H.
  destruct (OutlookAPI.init_try host self account p) as [r0 p0] eqn:Htry.
  apply keeps_init_try in Htry.
  destruct r0 as [[]|[kind msg|msg]];
    try destruct (OutlookAPI.check_outlook_is_open host (OutlookAPI.world p0));
    inversion H; subst; exact Htry.
Qed.

(** A construction leaves the class attribute bound to the instance it
    returns. *)
Lemma call_binds_instance account (p p1 : OutlookAPI.Process W) r :
  OutlookAPI.call host account p = (r, p1) ->
  exists self,
    OutlookAPI._outlookapi p1 = Some self /\
    (forall i, r = Ok i -> i = self).
Proof.
  unfold OutlookAPI.call, OutlookAPI.__new__. intros H.
  destruct (OutlookAPI._outlookapi p) as [self|] eqn:Hcls.
  - destruct (OutlookAPI.__init__ host self account p) as [r0 p0] eqn:Hinit.
    apply keeps_init in Hinit as (Hc & _).
    exists self. destruct r0; inversion H; subst; split; congruence.
  - match type of H with
    | context [OutlookAPI.__init__ host ?s account ?q] =>
        destruct (OutlookAPI.__init__ host s account q) as [r0 p0] eqn:Hinit
    end.
    apply keeps_init in Hinit as (Hc & _). cbn in Hc.
    eexists. destruct r0; inversion H; subst; split; try exact Hc; congruence.
Qed.

End Singleton.

(** C5 (amended): [__new__] makes [OutlookAPI] a singleton instance: after a
    first construction, a second one returns the instance stored in the class
    and allocates no other; but [__init__] runs again on that instance, so
    the second construction is one more run of [__init__] (a new dispatch of
    the automation server and the reassignment of every attribute) in the
    state the process has reached. *)
Theorem second_construction_reuses_instance {W} (host : ComHost W)
    (account1 account2 : string) (p p1 p2 : OutlookAPI.Process W)
    (r1 r2 : result nat) :
  OutlookAPI.call host account1 p = (r1, p1) ->
  OutlookAPI.call host account2 p1 = (r2, p2) ->
  exists self,
    OutlookAPI._outlookapi p1 = Some self /\
    OutlookAPI._outlookapi p2 = Some self /\
    (forall i, r1 = Ok i -> i = self) /\
    (forall i, r2 = Ok i -> i = self) /\
    length (OutlookAPI.instances p2) = length (OutlookAPI.instances p1) /\
    OutlookAPI.__init__ host self account2 p1
      = (match r2 with Ok _ => Ok tt | Raise e => Raise e end, p2).
Proof.
  intros H1 H2.
  destruct (call_binds_instance host account1 p p1 r1 H1) as (self & Hcls & Hr1).
  exists self.
  unfold OutlookAPI.call, OutlookAPI.__new__ in H2. rewrite Hcls in H2.
  destruct (OutlookAPI.__init__ host self account2 p1) as [r0 p0] eqn:Hinit.
  destruct (keeps_init host self account2 _ _ _ Hinit) as (Hc & Hl).
  destruct r0 as [[]|e]; inversion H2; subst;
    repeat split; try exact Hr1; congruence.
Qed.

Lemma second_construction_reuses_instance_witness :
  let first := OutlookAPI.call Sim.host "me@corp.com" Sim.process0 in
  let second := OutlookAPI.call Sim.host "me@corp.com" first.2 in
  first.1 = Ok 0%nat /\
  second.1 = Ok 0%nat /\
  length (OutlookAPI.instances second.2) = 1%nat /\
  OutlookAPI.__init__ Sim.host 0 "me@corp.com" first.2 = (Ok tt, second.2).
Proof.
  cbn zeta.
  destruct (second_construction_reuses_instance Sim.host "me@corp.com" "me@corp.com"
              Sim.process0
              (OutlookAPI.call Sim.host "me@corp.com" Sim.process0).2
              (OutlookAPI.call Sim.host "me@corp.com"
                 (OutlookAPI.call Sim.host "me@corp.com" Sim.process0).2).2
              (Ok 0%nat) (Ok 0%nat))
    as (self & Hcls & _ & _ & _ & Hlen & Hinit).
  - vm_compute. reflexivity.
  - vm_compute. reflexivity.
  - assert (Hself : self = 0%nat).
    { assert (Hc0 : OutlookAPI._outlookapi
                      (OutlookAPI.call Sim.host "me@corp.com" Sim.process0).2
                    = Some 0%nat) by (vm_compute; reflexivity).
      rewrite Hc0 in Hcls. now injection Hcls. }
    subst self.
    split; [vm_compute; reflexivity|]. split; [vm_compute; reflexivity|].
    split; [rewrite Hlen; vm_compute; reflexivity | exact Hinit].
Defined.

(** C5 (counterexample): construct the session, create a draft with
    [create_mail], and construct the session again.  The same instance comes
    back, but the second construction dispatched the automation server a
    second time, replaced the handle held in [self.outlook], and reset
    [self.mail] to [None]. *)
Lemma second_construction_reinitialises_counterexample :
  let first := OutlookAPI.call Sim.host "me@corp.com" Sim.process0 in
  let drafted := OutlookAPI.create_mail Sim.host 0 first.2 in
  let second := OutlookAPI.call Sim.host "me@corp.com" drafted.2 in
  first.1 = Ok 0%nat /\ drafted.1 = Ok tt /\ second.1 = Ok 0%nat /\
  Sim.dispatched (OutlookAPI.world drafted.2) = 1 /\
  Sim.dispatched (OutlookAPI.world second.2) = 2 /\
  OutlookAPI.instances drafted.2 !! 0%nat ≫= OutlookAPI.outlook = Some 100 /\
  OutlookAPI.instances second.2 !! 0%nat ≫= OutlookAPI.outlook = Some 101 /\
  OutlookAPI.instances drafted.2 !! 0%nat ≫= OutlookAPI.mail
    = Some (Some (Mail.__init__ (Some 200))) /\
  OutlookAPI.instances second.2 !! 0%nat ≫= OutlookAPI.mail = Some None.
Proof. vm_compute. repeat split. Qed.

(** * Further properties *)

(** ** Folder.__init__ *)

(** Wrapping a folder whose name and children the host delivers is wrapping
    its children into a dictionary. *)
Lemma Folder_init_unfold (name : string) (ref : handle) (values : list HostFolder) :
  Folder.__init__ (HFolder (Ok name) ref (Ok values)) =
    match Folder.snapshot values with
    | Raise e => Raise e
    | Ok d => Ok (Folder.mk name ref d)
    end.
Proof. reflexivity. Qed.

Lemma Folder_init_inv (c : HostFolder) (f : Folder.t) :
  Folder.__init__ c = Ok f ->
  exists name values d,
    c = HFolder (Ok name) (hf_ref c) (Ok values) /\
    Folder.snapshot values = Ok d /\
    f = Folder.mk name (hf_ref c) d.
Proof.
  destruct c as [[name|e] ref [values|e']]; try discriminate.
  rewrite Folder_init_unfold.
  destruct (Folder.snapshot values) as [d|e] eqn:Hs; [|discriminate].
  intros H; injection H as <-. now exists name, values, d.
Qed.

Lemma snapshot_from_app (l1 l2 : list HostFolder) (d0 : gmap string Folder.t) :
  Folder.snapshot_from (l1 ++ l2) d0 =
    match Folder.snapshot_from l1 d0 with
    | Ok d1 => Folder.snapshot_from l2 d1
    | Raise e => Raise e
    end.
Proof.
  revert d0. induction l1 as [|v l1 IH]; intros d0; [reflexivity|].
  cbn [app Folder.snapshot_from].
  destruct (hf_Name v); [|reflexivity].
  destruct (Folder.__init__ v); [apply IH | reflexivity].
Qed.

(** Folders of other names leave the entry of [k] alone. *)
Lemma snapshot_from_other (values : list HostFolder) (d0 d : gmap string Folder.t)
    (k : string) :
  Folder.snapshot_from values d0 = Ok d ->
  (forall u, u ∈ values -> hf_Name u ≠ Ok k) ->
  d !! k = d0 !! k.
Proof.
  revert d0. induction values as [|v values IH]; cbn [Folder.snapshot_from];
    intros d0 Hs Hother.
  - now injection Hs as <-.
  - destruct (hf_Name v) as [key|e] eqn:Hname; [|discriminate].
    destruct (Folder.__init__ v) as [folder|e]; [|discriminate].
    rewrite (IH _ Hs) by (intros u Hu; apply Hother; now right).
    apply lookup_insert_ne. intros ->. apply (Hother v); [left | exact Hname].
Qed.

Lemma snapshot_from_lookup (values : list HostFolder) (d0 d : gmap string Folder.t)
    (k : string) (sub : Folder.t) :
  Folder.snapshot_from values d0 = Ok d ->
  d !! k = Some sub ->
  d0 !! k = Some sub \/
  exists v, v ∈ values /\ hf_Name v = Ok k /\ Folder.__init__ v = Ok sub.
Proof.
  revert d0. induction values as [|v values IH]; cbn [Folder.snapshot_from];
    intros d0 Hs Hk.
  - injection Hs as <-. now left.
  - destruct (hf_Name v) as [key|e] eqn:Hname; [|discriminate].
    destruct (Folder.__init__ v) as [folder|e] eqn:Hinit; [|discriminate].
    destruct (IH _ Hs Hk) as [Hd0 | (u & Hu & Hn & Hi)].
    + destruct (decide (key = k)) as [->|Hne].
      * rewrite lookup_insert_eq in Hd0. injection Hd0 as <-.
        right. exists v. split; [left|]. now split.
      * rewrite lookup_insert_ne in Hd0 by exact Hne. now left.
    + right. exists u. split; [now right|]. now split.
Qed.

(** X1: a folder that wraps successfully mirrors its host folder: it has the
    host's name and handle, and the keys of its [Folders] dictionary are
    exactly the names of the host's child folders. *)
Theorem Folder_init_mirrors_children (c : HostFolder) (f : Folder.t) :
  Folder.__init__ c = Ok f ->
  exists values,
    hf_Folders c = Ok values /\
    hf_Name c = Ok (Folder.Name f) /\
    Folder.COMObject f = hf_ref c /\
    forall k, k ∈ dom (Folder.Folders f) <-> exists v, v ∈ values /\ hf_Name v = Ok k.
Proof.
  intros H. destruct (Folder_init_inv c f H) as (name & values & d & Hc & Hs & ->).
  exists values. rewrite Hc. cbn. repeat split; try reflexivity.
  - apply (snapshot_dom values d Hs).
  - apply (snapshot_dom values d Hs).
Qed.

Lemma Folder_init_mirrors_children_witness :
  Folder.__init__ Sim.mailbox = Ok (Folder.mk "me@corp.com" 10
                                      {[ "Inbox" := Folder.mk "Inbox" 11 ∅ ]}) /\
  exists values,
    hf_Folders Sim.mailbox = Ok values /\
    hf_Name Sim.mailbox = Ok "me@corp.com" /\
    10 = hf_ref Sim.mailbox /\
    forall k, k ∈ dom ({[ "Inbox" := Folder.mk "Inbox" 11 ∅ ]} : gmap string Folder.t)
              <-> exists v, v ∈ values /\ hf_Name v = Ok k.
Proof.
  assert (H : Folder.__init__ Sim.mailbox
              = Ok (Folder.mk "me@corp.com" 10 {[ "Inbox" := Folder.mk "Inbox" 11 ∅ ]}))
    by (vm_compute; reflexivity).
  split; [exact H|].
  exact (Folder_init_mirrors_children Sim.mailbox _ H).
Defined.

(** X2: every entry of the [Folders] dictionary is the wrapper of a child
    folder of that name, and when several children share a name the entry is
    the wrapper of the last of them. *)
Theorem Folder_init_entries (name : string) (ref : handle)
    (values : list HostFolder) (f : Folder.t) :
  Folder.__init__ (HFolder (Ok name) ref (Ok values)) = Ok f ->
  (forall k sub,
     Folder.Folders f !! k = Some sub ->
     exists v, v ∈ values /\ hf_Name v = Ok k /\ Folder.__init__ v = Ok sub) /\
  (forall before v after k,
     values = before ++ v :: after ->
     hf_Name v = Ok k ->
     (forall u, u ∈ after -> hf_Name u ≠ Ok k) ->
     exists sub, Folder.__init__ v = Ok sub /\ Folder.Folders f !! k = Some sub).
Proof.
  rewrite Folder_init_unfold.
  destruct (Folder.snapshot values) as [d|e] eqn:Hs; [|discriminate].
  intros H; injection H as <-. cbn [Folder.Folders]. split.
  - intros k sub Hk.
    destruct (snapshot_from_lookup values ∅ d k sub Hs Hk) as [Hempty | Hv];
      [now rewrite lookup_empty in Hempty | exact Hv].
  - intros before v after k -> Hname Hafter.
    unfold Folder.snapshot in Hs. rewrite snapshot_from_app in Hs.
    destruct (Folder.snapshot_from before ∅) as [d1|e]; [|discriminate].
    cbn [Folder.snapshot_from] in Hs. rewrite Hname in Hs.
    destruct (Folder.__init__ v) as [sub|e]; [|discriminate].
    exists sub. split; [reflexivity|].
    rewrite (snapshot_from_other after _ d k Hs Hafter). apply lookup_insert_eq.
Qed.

(** Two stores of the same name: the later one is the entry. *)
Lemma Folder_init_entries_witness :
  let first := HFolder (Ok "Archive") 21 (Ok []) in
  let second := HFolder (Ok "Archive") 22 (Ok []) in
  exists f,
    Folder.__init__ (HFolder (Ok "root") 20 (Ok [first; second])) = Ok f /\
    Folder.Folders f !! "Archive" = Some (Folder.mk "Archive" 22 ∅).
Proof.
  cbn zeta.
  exists (Folder.mk "root" 20 {[ "Archive" := Folder.mk "Archive" 22 ∅ ]}).
  assert (H : Folder.__init__
                (HFolder (Ok "root") 20
                   (Ok [HFolder (Ok "Archive") 21 (Ok []);
                        HFolder (Ok "Archive") 22 (Ok [])]))
              = Ok (Folder.mk "root" 20 {[ "Archive" := Folder.mk "Archive" 22 ∅ ]}))
    by (vm_compute; reflexivity).
  split; [exact H|].
  destruct (Folder_init_entries _ _ _ _ H) as (_ & Hlast).
  destruct (Hlast [HFolder (Ok "Archive") 21 (Ok [])]
                  (HFolder (Ok "Archive") 22 (Ok [])) [] "Archive"
                  eq_refl eq_refl) as (sub & Hsub & Hk).
  - intros u Hu. inversion Hu.
  - cbn in Hsub. injection Hsub as <-. exact Hk.
Defined.

(** X3: no partial result.  When a child folder fails to wrap, at whatever
    depth the host raised below it, and the children before it wrapped, the
    parent fails with the same exception. *)
Theorem Folder_init_child_failure (name : string) (ref : handle)
    (before after : list HostFolder) (v : HostFolder) (d : gmap string Folder.t)
    (e : exn) :
  Folder.snapshot before = Ok d ->
  Folder.__init__ v = Raise e ->
  Folder.__init__ (HFolder (Ok name) ref (Ok (before ++ v :: after))) = Raise e.
Proof.
  intros Hbefore Hv. rewrite Folder_init_unfold.
  unfold Folder.snapshot in *. rewrite snapshot_from_app, Hbefore.
  cbn [Folder.snapshot_from].
  destruct (hf_Name v) as [key|e'] eqn:Hname.
  - now rewrite Hv.
  - destruct v as [n r fs]. cbn in Hname. subst n. cbn in Hv. congruence.
Qed.

(** A grandchild whose name cannot be read makes the whole tree fail. *)
Lemma Folder_init_child_failure_witness :
  let broken := HFolder (Raise (PyException "com_error" "busy")) 31 (Ok []) in
  let child := HFolder (Ok "Sent") 30 (Ok [broken]) in
  Folder.snapshot [Sim.inbox] = Ok {[ "Inbox" := Folder.mk "Inbox" 11 ∅ ]} /\
  Folder.__init__ child = Raise (PyException "com_error" "busy") /\
  Folder.__init__ (HFolder (Ok "me@corp.com") 10 (Ok ([Sim.inbox] ++ child :: [])))
    = Raise (PyException "com_error" "busy").
Proof.
  cbn zeta.
  assert (H1 : Folder.snapshot [Sim.inbox] = Ok {[ "Inbox" := Folder.mk "Inbox" 11 ∅ ]})
    by (vm_compute; reflexivity).
  assert (H2 : Folder.__init__
                 (HFolder (Ok "Sent") 30
                    (Ok [HFolder (Raise (PyException "com_error" "busy")) 31 (Ok [])]))
               = Raise (PyException "com_error" "busy")) by reflexivity.
  split; [exact H1|]. split; [exact H2|].
  exact (Folder_init_child_failure "me@corp.com" 10 [Sim.inbox] [] _ _ _ H1 H2).
Defined.

(** ** Folder.loop_trought_last_messages, further *)

Section LoopAnyHost.
Context {W : Type} (host : ComHost W).

Lemma last_messages_loop_bound (n : nat) items mail (w : W) :
  (length (yielded (Folder.last_messages_loop host n items mail w)) <= n)%nat.
Proof.
  revert mail w. induction n as [|n IH]; intros mail w; cbn; [lia|].
  destruct (GetPrevious host items w) as [[previous|e] w']; cbn; [|lia].
  specialize (IH (Mail.__init__ previous) w'). lia.
Qed.

Lemma last_messages_loop_placeholders (n : nat) items (c : option handle) (w : W) :
  Forall (fun m => m = Mail.__init__ (Mail.COMObject m))
         (yielded (Folder.last_messages_loop host n items (Mail.__init__ c) w)).
Proof.
  revert c w. induction n as [|n IH]; intros c w; cbn; [constructor|].
  constructor; [reflexivity|].
  destruct (GetPrevious host items w) as [[previous|e] w']; [apply IH | constructor].
Qed.

Lemma last_messages_loop_prefix (n k : nat) items mail (w : W) :
  yielded (Folder.last_messages_loop host n items mail w)
  `prefix_of` yielded (Folder.last_messages_loop host (n + k) items mail w).
Proof.
  revert mail w. induction n as [|n IH]; intros mail w; [apply prefix_nil|].
  cbn. apply prefix_cons.
  destruct (GetPrevious host items w) as [[previous|e] w']; [apply IH | reflexivity].
Qed.

End LoopAnyHost.

(** X4: whatever the host does, the generator never yields more records than
    an explicit non-zero limit allows. *)
Theorem limit_bounds_yielded {W} (host : ComHost W) (self : Folder.t) (N : Z)
    (w : W) :
  N <> 0 ->
  Z.of_nat (length (yielded (Folder.loop_trought_last_messages host self (Some N) w)))
  <= Z.max 0 N.
Proof.
  intros HN. unfold Folder.loop_trought_last_messages.
  destruct (Items host (Folder.COMObject self) w) as [[items|e] w1]; [|cbn; lia].
  cbn [Folder.not_loops default from_option id].
  replace (Z.eqb N 0) with false by (symmetry; now apply Z.eqb_neq).
  destruct (GetLast host items w1) as [[last|e] w2]; [|cbn; lia].
  assert (H := last_messages_loop_bound host (Z.to_nat N) items (Mail.__init__ last) w2).
  lia.
Qed.

(** On the strict host the third [GetPrevious] raises: two records for a
    limit of five. *)
Lemma limit_bounds_yielded_witness :
  let r := Folder.loop_trought_last_messages SimStrict.host
             (Folder.mk "Inbox" 11 ∅) (Some 5) Sim.world0 in
  5 <> 0 /\
  Z.of_nat (length (yielded r)) <= Z.max 0 5 /\
  length (yielded r) = 2%nat /\
  outcome r = Raise SimStrict.no_item.
Proof.
  cbn zeta. split; [lia|].
  split; [apply (limit_bounds_yielded SimStrict.host); lia|].
  split; reflexivity.
Defined.

(** X5: a negative limit yields nothing; the collection is still fetched and
    its cursor moved to the last item. *)
Theorem negative_limit_yields_nothing {W} (host : ComHost W) (self : Folder.t)
    (N : Z) (w w1 w2 : W) (items : handle) (last : option handle) :
  N < 0 ->
  Items host (Folder.COMObject self) w = (Ok items, w1) ->
  GetLast host items w1 = (Ok last, w2) ->
  Folder.loop_trought_last_messages host self (Some N) w = mkRun [] [] (Ok tt) w2.
Proof.
  intros HN HItems HLast. unfold Folder.loop_trought_last_messages.
  rewrite HItems. cbn [Folder.not_loops default from_option id].
  replace (Z.eqb N 0) with false by (symmetry; apply Z.eqb_neq; lia).
  rewrite HLast. replace (Z.to_nat N) with 0%nat by lia. reflexivity.
Qed.

Lemma negative_limit_yields_nothing_witness :
  -1 < 0 /\
  Folder.loop_trought_last_messages Sim.host (Folder.mk "Inbox" 11 ∅) (Some (-1))
    Sim.world0
  = mkRun [] [] (Ok tt) (Sim.with_behind [7] Sim.world0).
Proof.
  split; [lia|].
  apply (negative_limit_yields_nothing Sim.host (Folder.mk "Inbox" 11 ∅) (-1)
           Sim.world0 Sim.world0 (Sim.with_behind [7] Sim.world0) 300 (Some 8)).
  - lia.
  - reflexivity.
  - reflexivity.
Defined.

(** X6: every record the generator yields carries the placeholder values of
    [Mail.__init__] and nothing of the message it wraps but its handle. *)
Theorem yielded_records_are_placeholders {W} (host : ComHost W) (self : Folder.t)
    (loops : option Z) (w : W) :
  Forall (fun m => m = Mail.__init__ (Mail.COMObject m))
         (yielded (Folder.loop_trought_last_messages host self loops w)).
Proof.
  unfold Folder.loop_trought_last_messages.
  destruct (Items host (Folder.COMObject self) w) as [[items|e] w1]; [|constructor].
  destruct (if Folder.not_loops loops then Count host items w1 else Ok (default 0 loops))
    as [n|e]; [|constructor].
  destruct (GetLast host items w1) as [[last|e] w2]; [|constructor].
  apply last_messages_loop_placeholders.
Qed.

(** X7: when [GetLast] raises, as a host that rejects it on an empty folder
    does, the generator yields nothing and ends with that exception. *)
Theorem GetLast_failure_propagates {W} (host : ComHost W) (self : Folder.t)
    (loops : option Z) (w w1 w2 : W) (items : handle) (e : exn) :
  Items host (Folder.COMObject self) w = (Ok items, w1) ->
  Folder.not_loops loops = false \/ (exists n, Count host items w1 = Ok n) ->
  GetLast host items w1 = (Raise e, w2) ->
  Folder.loop_trought_last_messages host self loops w = mkRun [] [] (Raise e) w2.
Proof.
  intros HItems Hlimit HLast. unfold Folder.loop_trought_last_messages.
  rewrite HItems.
  destruct Hlimit as [Hexplicit | (n & HCount)].
  - rewrite Hexplicit, HLast. reflexivity.
  - destruct (Folder.not_loops loops); [rewrite HCount|]; rewrite HLast; reflexivity.
Qed.

Lemma GetLast_failure_propagates_witness :
  Items SimStrict.host 11 SimStrict.world_empty = (Ok 300, SimStrict.world_empty) /\
  Count SimStrict.host 300 SimStrict.world_empty = Ok 0 /\
  GetLast SimStrict.host 300 SimStrict.world_empty
    = (Raise SimStrict.no_item, SimStrict.world_empty) /\
  Folder.loop_trought_last_messages SimStrict.host (Folder.mk "Inbox" 11 ∅) None
    SimStrict.world_empty
  = mkRun [] [] (Raise SimStrict.no_item) SimStrict.world_empty.
Proof.
  split; [reflexivity|]. split; [reflexivity|]. split; [reflexivity|].
  apply (GetLast_failure_propagates SimStrict.host (Folder.mk "Inbox" 11 ∅) None
           SimStrict.world_empty SimStrict.world_empty SimStrict.world_empty 300).
  - reflexivity.
  - right. now exists 0.
  - reflexivity.
Defined.

(** X8: a larger limit only extends the sequence: from the same host state,
    the records yielded for a positive limit [N] are the first records
    yielded for any limit [M >= N]. *)
Theorem larger_limit_extends_sequence {W} (host : ComHost W) (self : Folder.t)
    (N M : Z) (w : W) :
  0 < N <= M ->
  yielded (Folder.loop_trought_last_messages host self (Some N) w)
  `prefix_of` yielded (Folder.loop_trought_last_messages host self (Some M) w).
Proof.
  intros HNM. unfold Folder.loop_trought_last_messages.
  destruct (Items host (Folder.COMObject self) w) as [[items|e] w1]; [|reflexivity].
  cbn [Folder.not_loops default from_option id].
  replace (Z.eqb N 0) with false by (symmetry; apply Z.eqb_neq; lia).
  replace (Z.eqb M 0) with false by (symmetry; apply Z.eqb_neq; lia).
  destruct (GetLast host items w1) as [[last|e] w2]; [|reflexivity].
  replace (Z.to_nat M) with (Z.to_nat N + (Z.to_nat M - Z.to_nat N))%nat by lia.
  apply last_messages_loop_prefix.
Qed.

Lemma larger_limit_extends_sequence_witness :
  let inbox := Folder.mk "Inbox" 11 ∅ in
  0 < 1 <= 3 /\
  yielded (Folder.loop_trought_last_messages Sim.host inbox (Some 1) Sim.world0)
  `prefix_of` yielded (Folder.loop_trought_last_messages Sim.host inbox (Some 3) Sim.world0).
Proof.
  cbn zeta. split; [lia|].
  apply (larger_limit_extends_sequence Sim.host (Folder.mk "Inbox" 11 ∅) 1 3 Sim.world0).
  lia.
Defined.

(** ** OutlookAPI, further *)

Lemma bind_inv_Raise {S A B} (m : M S A) (k : A -> M S B) s e s2 :
  bind m k s = (Raise e, s2) ->
  m s = (Raise e, s2) \/ exists a s1, m s = (Ok a, s1) /\ k a s1 = (Raise e, s2).
Proof.
  unfold bind. destruct (m s) as [[a|e'] s1]; intros H.
  - right. now exists a, s1.
  - left. inversion H; now subst.
Qed.

Lemma any_outlook_exe_true (names : list (result string)) :
  OutlookAPI.any_outlook_exe names = Ok true <->
  exists before after,
    names = before ++ Ok "OUTLOOK.EXE" :: after /\
    Forall (fun x => exists name, x = Ok name) before.
Proof.
  induction names as [|[name|e] names IH]; cbn [OutlookAPI.any_outlook_exe].
  - split; [discriminate|]. intros (before & after & H & _). now destruct before.
  - destruct (String.eqb name "OUTLOOK.EXE") eqn:Heq.
    + apply String.eqb_eq in Heq as ->. split; [|reflexivity].
      intros _. exists [], names. split; [reflexivity | constructor].
    + apply String.eqb_neq in Heq. rewrite IH. split.
      * intros (before & after & -> & Hb). exists (Ok name :: before), after.
        split; [reflexivity|]. constructor; [now exists name | exact Hb].
      * intros (before & after & H & Hb). destruct before as [|x before].
        -- cbn in H. congruence.
        -- cbn in H. injection H as <- ->. exists before, after.
           split; [reflexivity|]. now inversion Hb.
  - split; [discriminate|]. intros (before & after & H & Hb).
    destruct before as [|x before]; [discriminate|].
    cbn in H. injection H as <- _. inversion Hb as [|? ? (name & Hx) _]. discriminate.
Qed.

Lemma any_outlook_exe_false (names : list (result string)) :
  OutlookAPI.any_outlook_exe names = Ok false <->
  Forall (fun x => exists name, x = Ok name /\ name <> "OUTLOOK.EXE") names.
Proof.
  induction names as [|[name|e] names IH]; cbn [OutlookAPI.any_outlook_exe].
  - split; [constructor | reflexivity].
  - destruct (String.eqb name "OUTLOOK.EXE") eqn:Heq.
    + apply String.eqb_eq in Heq as ->. split; [discriminate|].
      intros H. inversion H as [|? ? (name & Hx & Hne) _]. congruence.
    + apply String.eqb_neq in Heq. rewrite IH. split.
      * intros H. constructor; [now exists name | exact H].
      * intros H. now inversion H.
  - split; [discriminate|].
    intros H. inversion H as [|? ? (name & Hx & _) _]. discriminate.
Qed.

(** X9: over the processes psutil lists, [check_outlook_is_open] answers
    [True] exactly when a process named [OUTLOOK.EXE], letter for letter, is
    reached with every process before it opened and named without error, and
    [False] exactly when every process was named and none is [OUTLOOK.EXE];
    in the remaining cases psutil's exception leaves the method. *)
Theorem check_outlook_is_open_iff {W} (host : ComHost W) (w : W)
    (names : list (result string)) :
  ProcessNames host w = Ok names ->
  (OutlookAPI.check_outlook_is_open host w = Ok true <->
   exists before after,
     names = before ++ Ok "OUTLOOK.EXE" :: after /\
     Forall (fun x => exists name, x = Ok name) before) /\
  (OutlookAPI.check_outlook_is_open host w = Ok false <->
   Forall (fun x => exists name, x = Ok name /\ name <> "OUTLOOK.EXE") names) /\
  (forall e, OutlookAPI.check_outlook_is_open host w = Raise e <->
             exists before after,
               names = before ++ Raise e :: after /\
               Forall (fun x => exists name, x = Ok name /\ name <> "OUTLOOK.EXE")
                      before).
Proof.
  intros Hnames. unfold OutlookAPI.check_outlook_is_open. rewrite Hnames.
  split; [apply any_outlook_exe_true|]. split; [apply any_outlook_exe_false|].
  intros e. clear Hnames.
  induction names as [|[name|e'] names IH]; cbn [OutlookAPI.any_outlook_exe].
  - split; [discriminate|]. intros (before & after & H & _).
    now destruct before.
  - destruct (String.eqb name "OUTLOOK.EXE") eqn:Heq.
    + apply String.eqb_eq in Heq as ->. split; [discriminate|].
      intros (before & after & H & Hb).
      destruct before as [|x before]; [discriminate|].
      cbn in H. injection H as <- _.
      inversion Hb as [|? ? (name & Hx & Hne) _]. congruence.
    + apply String.eqb_neq in Heq. rewrite IH. split.
      * intros (before & after & -> & Hb).
        exists (Ok name :: before), after. split; [reflexivity|].
        constructor; [now exists name | exact Hb].
      * intros (before & after & H & Hb).
        destruct before as [|x before]; [discriminate|].
        cbn in H. injection H as <- ->. exists before, after.
        split; [reflexivity|]. now inversion Hb.
  - split.
    + intros H. injection H as ->.
      exists [], names. split; [reflexivity | constructor].
    + intros (before & after & H & Hb).
      destruct before as [|x before].
      * cbn in H. congruence.
      * cbn in H. injection H as <- _.
        inversion Hb as [|? ? (name & Hx & _) _]. discriminate.
Qed.

(** A scan interrupted before [OUTLOOK.EXE] is reached does not answer. *)
Lemma check_outlook_is_open_iff_witness :
  ProcessNames SimFaulty.scan_interrupted Sim.world0
    = Ok [Ok "explorer.exe"; Raise SimFaulty.no_such_process; Ok "OUTLOOK.EXE"] /\
  OutlookAPI.check_outlook_is_open SimFaulty.scan_interrupted Sim.world0
    = Raise SimFaulty.no_such_process.
Proof.
  destruct (check_outlook_is_open_iff SimFaulty.scan_interrupted Sim.world0
              [Ok "explorer.exe"; Raise SimFaulty.no_such_process; Ok "OUTLOOK.EXE"]
              eq_refl) as (_ & _ & Hraise).
  split; [reflexivity|].
  apply (proj2 (Hraise SimFaulty.no_such_process)).
  exists [Ok "explorer.exe"], [Ok "OUTLOOK.EXE"]. split; [reflexivity|].
  constructor; [|constructor]. exists "explorer.exe". split; [reflexivity | discriminate].
Defined.

(** The comparison is case-sensitive. *)
Example check_outlook_is_open_lowercase :
  OutlookAPI.any_outlook_exe [Ok "outlook.exe"; Ok "Outlook.exe"] = Ok false.
Proof. reflexivity. Qed.

Section ProcessInvariant.
Context {W : Type} (host : ComHost W).

Lemma new_wf (p p1 : OutlookAPI.Process W) self :
  OutlookAPI.__new__ p = (self, p1) ->
  Process_wf p ->
  Process_wf p1 /\ OutlookAPI._outlookapi p1 = Some self /\
  (self < length (OutlookAPI.instances p1))%nat /\
  OutlookAPI.world p1 = OutlookAPI.world p.
Proof.
  unfold OutlookAPI.__new__. intros H Hwf.
  destruct (OutlookAPI._outlookapi p) as [s|] eqn:Hcls; inversion H; subst.
  - repeat split; auto.
  - cbn. repeat split.
    + intros s Hs. cbn in Hs |- *. injection Hs as <-. rewrite length_app. cbn. lia.
    + rewrite length_app. cbn. lia.
Qed.

Lemma keeps_attr {A} self (get : OutlookAPI.t -> option A) name :
  keeps_instances (W := W) (OutlookAPI.attr self get name).
Proof.
  apply keeps_state. intros p. unfold OutlookAPI.attr.
  now destruct (OutlookAPI.instances p !! self ≫= get).
Qed.

Ltac keeps_steps :=
  repeat (apply keeps_bind; [|intros ?]);
  first [ apply keeps_host_call | apply keeps_assign | apply keeps_attr
        | apply keeps_state; reflexivity ].

Lemma keeps_resnapshot self : keeps_instances (OutlookAPI.resnapshot host self).
Proof. unfold OutlookAPI.resnapshot. keeps_steps. Qed.

(** What a successful [try] block leaves behind. *)
Lemma init_try_Ok self account (p p' : OutlookAPI.Process W) :
  OutlookAPI.init_try host self account p = (Ok tt, p') ->
  exists outlook w1 namespace values accounts folder,
    Dispatch host (OutlookAPI.world p) = (Ok outlook, w1) /\
    GetNameSpace host outlook "MAPI" w1 = (Ok namespace, OutlookAPI.world p') /\
    NamespaceFolders host namespace (OutlookAPI.world p') = Ok values /\
    Folder.snapshot values = Ok accounts /\
    accounts !! account = Some folder /\
    OutlookAPI.instances p' !! self =
      (fun _ => OutlookAPI.mk (Some outlook) (Some namespace) (Some accounts)
                  (Some (Folder.COMObject folder)) (Some None))
      <$> OutlookAPI.instances p !! self.
Proof.
  unfold OutlookAPI.init_try. intros H.
  apply bind_inv_Ok in H as (outlook & p1 & Hd & H).
  apply host_call_inv in Hd as (Hd & _ & Hi1).
  apply bind_inv_Ok in H as ([] & p2 & Ha2 & H).
  apply assign_inv in Ha2 as (_ & Hw2 & _ & Hi2).
  apply bind_inv_Ok in H as (namespace & p3 & Hn & H).
  apply host_call_inv in Hn as (Hn & _ & Hi3).
  apply bind_inv_Ok in H as ([] & p4 & Ha4 & H).
  apply assign_inv in Ha4 as (_ & Hw4 & _ & Hi4).
  apply bind_inv_Ok in H as (values & p5 & Hv & H).
  apply host_call_inv in Hv as (Hv & _ & Hi5).
  unfold read in Hv. injection Hv as Hv Hw5.
  apply bind_inv_Ok in H as (accounts & p6 & Hs & H).
  unfold OutlookAPI.of_result in Hs. injection Hs as Hs <-.
  apply bind_inv_Ok in H as ([] & p7 & Ha7 & H).
  apply assign_inv in Ha7 as (_ & Hw7 & _ & Hi7).
  apply bind_inv_Ok in H as (folder & p8 & Hf & H).
  destruct (accounts !! account) as [folder'|] eqn:Hlookup; [|discriminate].
  unfold ret in Hf. injection Hf as -> <-.
  apply bind_inv_Ok in H as ([] & p9 & Ha9 & H).
  apply assign_inv in Ha9 as (_ & Hw9 & _ & Hi9).
  apply assign_inv in H as (_ & Hw10 & _ & Hi10).
  exists outlook, (OutlookAPI.world p1), namespace, values, accounts, folder.
  assert (Hworld : OutlookAPI.world p' = OutlookAPI.world p3) by congruence.
  rewrite Hworld.
  split; [exact Hd|]. split; [now rewrite <- Hw2|].
  split; [rewrite Hw4 in Hv; exact Hv|].
  split; [exact Hs|]. split; [exact Hlookup|].
  rewrite Hi10, Hi9, Hi7, Hi5, Hi4, Hi3, Hi2, Hi1, !list_lookup_alter_eq.
  now destruct (OutlookAPI.instances p !! self).
Qed.

End ProcessInvariant.

(** X11: a construction that returns has dispatched the server, fetched the
    MAPI namespace and wrapped its folders, and leaves the instance with
    these handles, the snapshot as [accounts], the handle of the folder named
    [account] as [account], and [mail] set to [None]. *)
Theorem construction_success {W} (host : ComHost W) (account : string)
    (p p' : OutlookAPI.Process W) (self : nat) :
  Process_wf p ->
  OutlookAPI.call host account p = (Ok self, p') ->
  exists outlook w1 namespace values accounts folder,
    Dispatch host (OutlookAPI.world p) = (Ok outlook, w1) /\
    GetNameSpace host outlook "MAPI" w1 = (Ok namespace, OutlookAPI.world p') /\
    NamespaceFolders host namespace (OutlookAPI.world p') = Ok values /\
    Folder.snapshot values = Ok accounts /\
    accounts !! account = Some folder /\
    OutlookAPI.instances p' !! self =
      Some (OutlookAPI.mk (Some outlook) (Some namespace) (Some accounts)
              (Some (Folder.COMObject folder)) (Some None)).
Proof.
  intros Hwf Hcall. unfold OutlookAPI.call in Hcall.
  destruct (OutlookAPI.__new__ p) as [s p1] eqn:Hnew.
  destruct (new_wf p p1 s Hnew Hwf) as (_ & _ & Hlt & Hworld).
  destruct (OutlookAPI.__init__ host s account p1) as [r p2] eqn:Hinit.
  destruct r as [[]|e]; [|discriminate]. injection Hcall as <- <-.
  unfold OutlookAPI.__init__ in Hinit.
  destruct (OutlookAPI.init_try host s account p1) as [[[]|[kind msg|msg]] p3] eqn:Htry;
    [| destruct (OutlookAPI.check_outlook_is_open host (OutlookAPI.world p3));
       discriminate
     | discriminate].
  injection Hinit as <-.
  destruct (init_try_Ok host s account p1 p3 Htry)
    as (outlook & w1 & namespace & values & accounts & folder
        & Hd & Hn & Hv & Hs & Hf & Hi).
  exists outlook, w1, namespace, values, accounts, folder.
  rewrite Hworld in Hd. repeat split; try assumption.
  rewrite Hi. destruct (lookup_lt_is_Some_2 _ _ Hlt) as [o ->]. reflexivity.
Qed.

Lemma construction_success_witness :
  let p' := (OutlookAPI.call Sim.host "me@corp.com" Sim.process0).2 in
  Process_wf Sim.process0 /\
  OutlookAPI.call Sim.host "me@corp.com" Sim.process0 = (Ok 0%nat, p') /\
  exists outlook w1 namespace values accounts folder,
    Dispatch Sim.host (OutlookAPI.world Sim.process0) = (Ok outlook, w1) /\
    GetNameSpace Sim.host outlook "MAPI" w1 = (Ok namespace, OutlookAPI.world p') /\
    NamespaceFolders Sim.host namespace (OutlookAPI.world p') = Ok values /\
    Folder.snapshot values = Ok accounts /\
    accounts !! "me@corp.com" = Some folder /\
    OutlookAPI.instances p' !! 0%nat =
      Some (OutlookAPI.mk (Some outlook) (Some namespace) (Some accounts)
              (Some (Folder.COMObject folder)) (Some None)).
Proof.
  cbn zeta.
  assert (Hwf : Process_wf Sim.process0) by (intros s Hs; discriminate).
  assert (Hcall : OutlookAPI.call Sim.host "me@corp.com" Sim.process0
                  = (Ok 0%nat, (OutlookAPI.call Sim.host "me@corp.com" Sim.process0).2))
    by (vm_compute; reflexivity).
  split; [exact Hwf|]. split; [exact Hcall|].
  exact (construction_success Sim.host "me@corp.com" Sim.process0 _ 0 Hwf Hcall).
Defined.

(** X12: an account name that is not among the top-level folders ends the
    construction with [SystemExit], reporting the [AttributeError] of the
    attribute read on [None], even though every host call succeeded; this
    when the process scan of the handler completes, with the answer
    [open]. *)
Theorem unknown_account_is_fatal {W} (host : ComHost W) (account : string)
    (p : OutlookAPI.Process W) (outlook namespace : handle) (w1 w' : W)
    (values : list HostFolder) (accounts : gmap string Folder.t) (open : bool) :
  Dispatch host (OutlookAPI.world p) = (Ok outlook, w1) ->
  GetNameSpace host outlook "MAPI" w1 = (Ok namespace, w') ->
  NamespaceFolders host namespace w' = Ok values ->
  Folder.snapshot values = Ok accounts ->
  accounts !! account = None ->
  OutlookAPI.check_outlook_is_open host w' = Ok open ->
  (OutlookAPI.call host account p).1 =
    Raise (SystemExit
             (OutlookAPI.exit_message open
                "AttributeError" "'NoneType' object has no attribute 'COMObject'")).
Proof.
  intros Hd Hn Hv Hs Hnone Hopen. unfold OutlookAPI.call.
  destruct (OutlookAPI.__new__ p) as [self p1] eqn:Hnew.
  assert (Hworld : OutlookAPI.world p1 = OutlookAPI.world p).
  { unfold OutlookAPI.__new__ in Hnew.
    destruct (OutlookAPI._outlookapi p); inversion Hnew; reflexivity. }
  rewrite <- Hworld in Hd.
  assert (Htry : exists p',
    OutlookAPI.init_try host self account p1
      = (Raise (NoneType_has_no_attribute "COMObject"), p') /\
    OutlookAPI.world p' = w').
  { unfold OutlookAPI.init_try. eexists. split.
    { erewrite bind_Ok by (apply host_call_eq, Hd).
      erewrite bind_Ok by reflexivity.
      erewrite bind_Ok by (apply host_call_eq; exact Hn).
      erewrite bind_Ok by reflexivity.
      erewrite bind_Ok by (apply host_call_eq; unfold read; cbn; now rewrite Hv).
      erewrite bind_Ok by (unfold OutlookAPI.of_result; now rewrite Hs).
      erewrite bind_Ok by reflexivity.
      apply bind_Raise. rewrite Hnone. reflexivity. }
    reflexivity. }
  destruct Htry as (p' & Htry & Hw).
  unfold OutlookAPI.__init__. rewrite Htry, Hw, Hopen. reflexivity.
Qed.

Lemma unknown_account_is_fatal_witness :
  Folder.snapshot [Sim.mailbox]
    = Ok {[ "me@corp.com" := Folder.mk "me@corp.com" 10
              {[ "Inbox" := Folder.mk "Inbox" 11 ∅ ]} ]} /\
  (OutlookAPI.call Sim.host "nobody@corp.com" Sim.process0).1 =
    Raise (SystemExit
             (OutlookAPI.exit_message true
                "AttributeError" "'NoneType' object has no attribute 'COMObject'")).
Proof.
  assert (Hs : Folder.snapshot [Sim.mailbox]
               = Ok {[ "me@corp.com" := Folder.mk "me@corp.com" 10
                         {[ "Inbox" := Folder.mk "Inbox" 11 ∅ ]} ]})
    by (vm_compute; reflexivity).
  split; [exact Hs|].
  exact (unknown_account_is_fatal Sim.host "nobody@corp.com" Sim.process0 100 1
           (Sim.dispatch Sim.world0).2 (Sim.dispatch Sim.world0).2
           [Sim.mailbox] _ true eq_refl eq_refl eq_refl Hs eq_refl eq_refl).
Defined.

(** X13: the only exception of class [Exception] that can leave a
    construction is one raised by the process scan inside the handler:
    everything the [try] block raises that [except Exception] catches is
    turned into [SystemExit]. *)
Theorem construction_Exception_comes_from_scan {W} (host : ComHost W)
    (account : string) (p : OutlookAPI.Process W) (kind msg : string) :
  (OutlookAPI.call host account p).1 = Raise (PyException kind msg) ->
  OutlookAPI.check_outlook_is_open host
    (OutlookAPI.world (OutlookAPI.call host account p).2)
  = Raise (PyException kind msg).
Proof.
  unfold OutlookAPI.call.
  destruct (OutlookAPI.__new__ p) as [self p1].
  unfold OutlookAPI.__init__.
  destruct (OutlookAPI.init_try host self account p1) as [[[]|[k m|m]] p2];
    cbn; try discriminate.
  destruct (OutlookAPI.check_outlook_is_open host (OutlookAPI.world p2))
    as [open|e] eqn:Hscan; cbn; [discriminate|].
  intros H. injection H as ->. exact Hscan.
Qed.

Lemma construction_Exception_comes_from_scan_witness :
  (OutlookAPI.call SimFaulty.scan_interrupted "me@corp.com" Sim.process_down).1
    = Raise (PyException "NoSuchProcess" "process no longer exists (pid=4242)") /\
  OutlookAPI.check_outlook_is_open SimFaulty.scan_interrupted
    (OutlookAPI.world
       (OutlookAPI.call SimFaulty.scan_interrupted "me@corp.com" Sim.process_down).2)
  = Raise (PyException "NoSuchProcess" "process no longer exists (pid=4242)").
Proof.
  assert (H : (OutlookAPI.call SimFaulty.scan_interrupted "me@corp.com"
                 Sim.process_down).1
              = Raise (PyException "NoSuchProcess"
                         "process no longer exists (pid=4242)")) by reflexivity.
  split; [exact H|].
  exact (construction_Exception_comes_from_scan SimFaulty.scan_interrupted
           "me@corp.com" Sim.process_down _ _ H).
Defined.

Section MutatorFailure.
Context {W : Type} (host : ComHost W).

Lemma attr_Raise {A} self (get : OutlookAPI.t -> option A) name
    (p p' : OutlookAPI.Process W) e :
  OutlookAPI.attr self get name p = (Raise e, p') -> p' = p.
Proof.
  unfold OutlookAPI.attr.
  destruct (OutlookAPI.instances p !! self ≫= get); intros H; inversion H; now subst.
Qed.

Lemma resnapshot_Raise self (p p' : OutlookAPI.Process W) e :
  OutlookAPI.resnapshot host self p = (Raise e, p') ->
  OutlookAPI.instances p' = OutlookAPI.instances p /\
  OutlookAPI.world p' = OutlookAPI.world p.
Proof.
  unfold OutlookAPI.resnapshot. intros H.
  apply bind_inv_Raise in H as [H | (namespace & p1 & Ha & H)].
  { apply attr_Raise in H as ->. now split. }
  apply attr_inv in Ha as (-> & _).
  apply bind_inv_Raise in H as [H | (values & p2 & Hv & H)].
  { apply host_call_inv in H as (H & _ & Hi). unfold read in H.
    injection H as _ Hw. now split. }
  apply host_call_inv in Hv as (Hv & _ & Hi2). unfold read in Hv.
  injection Hv as _ Hw2.
  apply bind_inv_Raise in H as [H | (accounts & p3 & Hs & H)].
  { unfold OutlookAPI.of_result in H. injection H as _ <-. now split. }
  apply assign_inv in H as (H & _). discriminate.
Qed.

(** A mutator that raises has either raised before reaching the host, or
    in the host's mutator, or while re-snapshotting. *)
Lemma mutator_Raise (mutate : handle -> M W unit) self (p p' : OutlookAPI.Process W) e :
  (let* account := OutlookAPI.attr self OutlookAPI.account "account" in
   let* _ := OutlookAPI.host_call (mutate account) in
   OutlookAPI.resnapshot host self) p = (Raise e, p') ->
  OutlookAPI.instances p' = OutlookAPI.instances p /\
  OutlookAPI._outlookapi p' = OutlookAPI._outlookapi p.
Proof.
  intros H.
  apply bind_inv_Raise in H as [H | (account & p1 & Ha & H)].
  { apply attr_Raise in H as ->. now split. }
  apply attr_inv in Ha as (-> & _).
  apply bind_inv_Raise in H as [H | ([] & p2 & Hm & H)].
  { apply host_call_inv in H as (_ & Hc & Hi). now split. }
  apply host_call_inv in Hm as (_ & Hc & Hi).
  destruct (keeps_resnapshot host self _ _ _ H) as (Hc' & _).
  apply resnapshot_Raise in H as (Hi' & _). split; congruence.
Qed.

End MutatorFailure.

(** X14: when [add_folder] or [delete_folder] raises, no attribute of any
    instance has changed: [accounts] is still the earlier snapshot, also when
    the host had already carried out the change and only the re-snapshot
    failed. *)
Theorem folder_mutator_failure_keeps_accounts {W} (host : ComHost W) (self : nat)
    (name : string) (p p' : OutlookAPI.Process W) (e : exn) :
  OutlookAPI.add_folder host self name p = (Raise e, p') \/
  OutlookAPI.delete_folder host self name p = (Raise e, p') ->
  OutlookAPI.instances p' = OutlookAPI.instances p.
Proof.
  intros [H | H].
  - exact (proj1 (mutator_Raise host (fun a => FoldersAdd host a name) self p p' e H)).
  - exact (proj1 (mutator_Raise host (fun a => FoldersDelete host a name) self p p' e H)).
Qed.

(** Deleting a folder that does not exist. *)
Lemma folder_mutator_failure_keeps_accounts_witness :
  let p := (OutlookAPI.call Sim.host "me@corp.com" Sim.process0).2 in
  let p' := (OutlookAPI.delete_folder Sim.host 0 "Nope" p).2 in
  OutlookAPI.delete_folder Sim.host 0 "Nope" p
    = (Raise (PyException "com_error" "The attempted operation failed."), p') /\
  OutlookAPI.instances p' = OutlookAPI.instances p.
Proof.
  cbn zeta.
  assert (H : OutlookAPI.delete_folder Sim.host 0 "Nope"
                (OutlookAPI.call Sim.host "me@corp.com" Sim.process0).2
              = (Raise (PyException "com_error" "The attempted operation failed."),
                 (OutlookAPI.delete_folder Sim.host 0 "Nope"
                    (OutlookAPI.call Sim.host "me@corp.com" Sim.process0).2).2))
    by (vm_compute; reflexivity).
  split; [exact H|].
  apply (folder_mutator_failure_keeps_accounts Sim.host 0 "Nope" _ _ _ (or_intror H)).
Defined.

(** X15: a successful [add_folder] or [delete_folder] replaces [accounts] and
    nothing else: the other attributes of the instance, among them the
    [account] handle and the current [mail], and the class attribute are as
    before. *)
Theorem folder_mutator_changes_accounts_only {W} (host : ComHost W) (self : nat)
    (name : string) (p p' : OutlookAPI.Process W) :
  OutlookAPI.add_folder host self name p = (Ok tt, p') \/
  OutlookAPI.delete_folder host self name p = (Ok tt, p') ->
  exists accounts,
    OutlookAPI.instances p'
      = alter (OutlookAPI.set_accounts accounts) self (OutlookAPI.instances p) /\
    OutlookAPI._outlookapi p' = OutlookAPI._outlookapi p.
Proof.
  unfold OutlookAPI.add_folder, OutlookAPI.delete_folder, OutlookAPI.resnapshot.
  intros [H | H];
    apply bind_inv_Ok in H as (account & p1 & Ha & H);
    apply attr_inv in Ha as (-> & _);
    apply bind_inv_Ok in H as ([] & p2 & Hm & H);
    apply host_call_inv in Hm as (_ & Hc2 & Hi2);
    apply bind_inv_Ok in H as (namespace & p3 & Ha & H);
    apply attr_inv in Ha as (-> & _);
    apply bind_inv_Ok in H as (values & p4 & Hv & H);
    apply host_call_inv in Hv as (_ & Hc4 & Hi4);
    apply bind_inv_Ok in H as (accounts & p5 & Hs & H);
    unfold OutlookAPI.of_result in Hs; injection Hs as _ <-;
    apply assign_inv in H as (_ & _ & Hc & Hi);
    exists accounts; split; congruence.
Qed.

Lemma folder_mutator_changes_accounts_only_witness :
  let p := (OutlookAPI.call Sim.host "me@corp.com" Sim.process0).2 in
  let p' := (OutlookAPI.add_folder Sim.host 0 "Archive" p).2 in
  OutlookAPI.add_folder Sim.host 0 "Archive" p = (Ok tt, p') /\
  exists accounts,
    OutlookAPI.instances p'
      = alter (OutlookAPI.set_accounts accounts) 0%nat (OutlookAPI.instances p) /\
    OutlookAPI._outlookapi p' = OutlookAPI._outlookapi p.
Proof.
  cbn zeta.
  assert (H : OutlookAPI.add_folder Sim.host 0 "Archive"
                (OutlookAPI.call Sim.host "me@corp.com" Sim.process0).2
              = (Ok tt,
                 (OutlookAPI.add_folder Sim.host 0 "Archive"
                    (OutlookAPI.call Sim.host "me@corp.com" Sim.process0).2).2))
    by (vm_compute; reflexivity).
  split; [exact H|].
  apply (folder_mutator_changes_accounts_only Sim.host 0 "Archive" _ _ (or_introl H)).
Defined.

(** X16: [create_mail] and [open_saved_mail] either raise and leave every
    instance as it was, or replace [self.mail], and nothing else, by a record
    bound to the item the host returned ([CreateItem(0)] on [self.outlook],
    respectively [OpenSharedItem(path)] on [self.namespace]) and carrying the
    placeholder values. *)
Theorem mail_openers_set_mail {W} (host : ComHost W) (self : nat) (path : string)
    (p p' : OutlookAPI.Process W) (r : result unit) :
  (OutlookAPI.create_mail host self p = (r, p') ->
   match r with
   | Raise _ => OutlookAPI.instances p' = OutlookAPI.instances p
   | Ok _ =>
       exists outlook item,
         OutlookAPI.instances p !! self ≫= OutlookAPI.outlook = Some outlook /\
         CreateItem host outlook 0 (OutlookAPI.world p)
           = (Ok item, OutlookAPI.world p') /\
         OutlookAPI.instances p'
         = alter (OutlookAPI.set_mail (Some (Mail.__init__ (Some item)))) self
                 (OutlookAPI.instances p)
   end) /\
  (OutlookAPI.open_saved_mail host self path p = (r, p') ->
   match r with
   | Raise _ => OutlookAPI.instances p' = OutlookAPI.instances p
   | Ok _ =>
       exists namespace item,
         OutlookAPI.instances p !! self ≫= OutlookAPI.namespace = Some namespace /\
         OpenSharedItem host namespace path (OutlookAPI.world p)
           = (Ok item, OutlookAPI.world p') /\
         OutlookAPI.instances p'
         = alter (OutlookAPI.set_mail (Some (Mail.__init__ (Some item)))) self
                 (OutlookAPI.instances p)
   end).
Proof.
  unfold OutlookAPI.create_mail, OutlookAPI.open_saved_mail.
  split; intros H; destruct r as [[]|e].
  - apply bind_inv_Ok in H as (outlook & p1 & Ha & H).
    apply attr_inv in Ha as (-> & Ho).
    apply bind_inv_Ok in H as (item & p2 & Hc & H).
    apply host_call_inv in Hc as (Hc & _ & Hi2).
    apply assign_inv in H as (_ & Hw & _ & Hi). exists outlook, item.
    split; [exact Ho|]. split; congruence.
  - apply bind_inv_Raise in H as [H | (outlook & p1 & Ha & H)].
    { now apply attr_Raise in H as ->. }
    apply attr_inv in Ha as (-> & _).
    apply bind_inv_Raise in H as [H | (item & p2 & Hc & H)].
    { now apply host_call_inv in H as (_ & _ & Hi). }
    apply assign_inv in H as (H & _). discriminate.
  - apply bind_inv_Ok in H as (namespace & p1 & Ha & H).
    apply attr_inv in Ha as (-> & Ho).
    apply bind_inv_Ok in H as (item & p2 & Hc & H).
    apply host_call_inv in Hc as (Hc & _ & Hi2).
    apply assign_inv in H as (_ & Hw & _ & Hi). exists namespace, item.
    split; [exact Ho|]. split; congruence.
  - apply bind_inv_Raise in H as [H | (namespace & p1 & Ha & H)].
    { now apply attr_Raise in H as ->. }
    apply attr_inv in Ha as (-> & _).
    apply bind_inv_Raise in H as [H | (item & p2 & Hc & H)].
    { now apply host_call_inv in H as (_ & _ & Hi). }
    apply assign_inv in H as (H & _). discriminate.
Qed.

(** After a construction, [create_mail] stores a record bound to the item
    the host created. *)
Lemma mail_openers_set_mail_witness :
  let p := (OutlookAPI.call Sim.host "me@corp.com" Sim.process0).2 in
  let p' := (OutlookAPI.create_mail Sim.host 0 p).2 in
  OutlookAPI.create_mail Sim.host 0 p = (Ok tt, p') /\
  exists outlook item,
    OutlookAPI.instances p !! 0%nat ≫= OutlookAPI.outlook = Some outlook /\
    CreateItem Sim.host outlook 0 (OutlookAPI.world p)
      = (Ok item, OutlookAPI.world p') /\
    OutlookAPI.instances p'
    = alter (OutlookAPI.set_mail (Some (Mail.__init__ (Some item)))) 0%nat
            (OutlookAPI.instances p).
Proof.
  cbn zeta.
  assert (H : OutlookAPI.create_mail Sim.host 0
                (OutlookAPI.call Sim.host "me@corp.com" Sim.process0).2
              = (Ok tt,
                 (OutlookAPI.create_mail Sim.host 0
                    (OutlookAPI.call Sim.host "me@corp.com" Sim.process0).2).2))
    by (vm_compute; reflexivity).
  split; [exact H|].
  exact (proj1 (mail_openers_set_mail Sim.host 0 "draft.msg" _ _ _) H).
Defined.

(** On an instance that was allocated but never initialised, [create_mail]
    raises before reaching the host. *)
Example create_mail_before_init :
  let blank := OutlookAPI.mkProcess Sim.world0 (Some 0%nat) [OutlookAPI.blank] in
  OutlookAPI.create_mail Sim.host 0 blank
    = (Raise (PyException "AttributeError"
                "'OutlookAPI' object has no attribute 'outlook'"), blank).
Proof. reflexivity. Qed.

(** ** Mail, further *)

Lemma for_each_app {S A} (body : A -> M S unit) (l1 l2 : list A) (s : S) :
  for_each body (l1 ++ l2) s
  = (let* _ := for_each body l1 in for_each body l2) s.
Proof.
  revert s. induction l1 as [|x l1 IH]; intros s; [reflexivity|].
  cbn [app for_each]. unfold bind.
  destruct (body x s) as [[[]|e] s']; [|reflexivity].
  rewrite IH. reflexivity.
Qed.

(** X17: [create] binds the record: it dispatches the server, asks it for a
    new mail item (kind 0) and stores the handle, keeping every other field;
    from then on [send] is the host's [Send] on that item. *)
Theorem create_binds_record {W} (host : ComHost W) (self self' : Mail.t) (w w' : W) :
  Mail.create host self w = (Ok self', w') ->
  exists outlook w1 item,
    Dispatch host w = (Ok outlook, w1) /\
    CreateItem host outlook 0 w1 = (Ok item, w') /\
    self' = Mail.set_COMObject self (Some item) /\
    forall w2, Mail.send host self' w2 = MailInvoke host item Send w2.
Proof.
  unfold Mail.create. intros H.
  apply bind_inv_Ok in H as (outlook & w1 & Hd & H).
  apply bind_inv_Ok in H as (item & w2 & Hc & H).
  unfold ret in H. injection H as <- <-.
  exists outlook, w1, item. repeat split; try assumption.
Qed.

Lemma create_binds_record_witness :
  Mail.create Sim.host (Mail.__init__ None) Sim.world0
    = (Ok (Mail.__init__ (Some 200)), (Sim.dispatch Sim.world0).2) /\
  exists outlook w1 item,
    Dispatch Sim.host Sim.world0 = (Ok outlook, w1) /\
    CreateItem Sim.host outlook 0 w1 = (Ok item, (Sim.dispatch Sim.world0).2) /\
    Mail.__init__ (Some 200) = Mail.set_COMObject (Mail.__init__ None) (Some item) /\
    forall w2, Mail.send Sim.host (Mail.__init__ (Some 200)) w2
               = MailInvoke Sim.host item Send w2.
Proof.
  assert (H : Mail.create Sim.host (Mail.__init__ None) Sim.world0
              = (Ok (Mail.__init__ (Some 200)), (Sim.dispatch Sim.world0).2))
    by reflexivity.
  split; [exact H|].
  exact (create_binds_record Sim.host _ _ _ _ H).
Defined.

(** X18: adding the recipients of [l1 ++ l2] is adding those of [l1] and
    then, if that did not raise, those of [l2]. *)
Theorem add_recipients_app {W} (host : ComHost W) (self : Mail.t)
    (l1 l2 : list string) (w : W) :
  Mail.add_recipients host self (l1 ++ l2) w
  = (let* _ := Mail.add_recipients host self l1 in
     Mail.add_recipients host self l2) w.
Proof. unfold Mail.add_recipients. apply for_each_app. Qed.

(** X19: [add_recipients] stops at the first recipient the host refuses:
    those before it have been added, those after it are not attempted, and
    the host's exception is what the caller gets. *)
Theorem add_recipients_stops_at_failure {W} (host : ComHost W) (self : Mail.t)
    (c : handle) (before after : list string) (recipient : string)
    (w w1 w2 : W) (e : exn) :
  Mail.COMObject self = Some c ->
  Mail.add_recipients host self before w = (Ok tt, w1) ->
  MailInvoke host c (RecipientsAdd recipient) w1 = (Raise e, w2) ->
  Mail.add_recipients host self (before ++ recipient :: after) w = (Raise e, w2).
Proof.
  intros Hbound Hbefore Hfail.
  rewrite add_recipients_app. erewrite bind_Ok by exact Hbefore.
  unfold Mail.add_recipients. cbn [for_each].
  apply bind_Raise. unfold Mail.COMObject_attr. rewrite Hbound.
  erewrite bind_Ok by reflexivity. exact Hfail.
Qed.

(** The first recipient is added, the second refused, the third never
    attempted. *)
Lemma add_recipients_stops_at_failure_witness :
  let self := Mail.__init__ (Some 200) in
  let w1 := Sim.with_call (200, RecipientsAdd "a@corp.com") Sim.world0 in
  Mail.COMObject self = Some 200 /\
  Mail.add_recipients SimStrict.host self ["a@corp.com"] Sim.world0 = (Ok tt, w1) /\
  MailInvoke SimStrict.host 200 (RecipientsAdd EmptyString) w1
    = (Raise SimStrict.no_item, w1) /\
  Mail.add_recipients SimStrict.host self
    (["a@corp.com"] ++ EmptyString :: ["b@corp.com"]) Sim.world0
  = (Raise SimStrict.no_item, w1).
Proof.
  cbn zeta. split; [reflexivity|]. split; [reflexivity|]. split; [reflexivity|].
  apply (add_recipients_stops_at_failure SimStrict.host (Mail.__init__ (Some 200)) 200
           ["a@corp.com"] ["b@corp.com"] EmptyString Sim.world0
           (Sim.with_call (200, RecipientsAdd "a@corp.com") Sim.world0)
           (Sim.with_call (200, RecipientsAdd "a@corp.com") Sim.world0));
    reflexivity.
Defined.

(** X20: on a bound record, a non-empty list given to [add_attachments] is
    attached element by element, in order, each as its string form; the list
    stored in [self.Attachments] plays no part. *)
Theorem explicit_attachments_are_attached {W} (host : ComHost W) (self : Mail.t)
    (c : handle) (a : Mail.attachment) (l : list Mail.attachment) (w : W) :
  Mail.COMObject self = Some c ->
  Mail.add_attachments host self (Some (a :: l)) w
  = for_each (fun x => MailInvoke host c (AttachmentsAdd (Mail.attachment_source x)))
             (a :: l) w.
Proof.
  intros Hbound. cbn [Mail.add_attachments]. unfold Mail.attach_all.
  generalize (a :: l). intros xs. revert w.
  induction xs as [|x xs IH]; intros w; [reflexivity|].
  cbn [for_each]. unfold Mail.COMObject_attr at 1. rewrite Hbound.
  unfold bind at 1 2 4. cbn [ret].
  destruct (MailInvoke host c (AttachmentsAdd (Mail.attachment_source x)) w)
    as [[[]|e] w']; [apply IH | reflexivity].
Qed.

Lemma explicit_attachments_are_attached_witness :
  let self :=
    Mail.mk (Some 200) None None None None None (Some ["stored.pdf"]) None None in
  Mail.COMObject self = Some 200 /\
  Mail.add_attachments Sim.host self (Some [Mail.APath "a.txt"; Mail.AStr "b.txt"])
    Sim.world0
  = (Ok tt, Sim.with_call (200, AttachmentsAdd "b.txt")
              (Sim.with_call (200, AttachmentsAdd "a.txt") Sim.world0)).
Proof.
  cbn zeta. split; [reflexivity|].
  rewrite (explicit_attachments_are_attached Sim.host
             (Mail.mk (Some 200) None None None None None (Some ["stored.pdf"])
                      None None)
             200 (Mail.APath "a.txt") [Mail.AStr "b.txt"] Sim.world0 eq_refl).
  reflexivity.
Defined.

(** X21: [_change_sender] cannot succeed: whatever the record, it raises
    [AttributeError] before any host call, because [Mail] has no [outlook]
    attribute. *)
Theorem change_sender_always_raises {W} (self : Mail.t) (w : W) :
  exists msg,
    MailAccessors._change_sender self w = (Raise (PyException "AttributeError" msg), w).
Proof.
  unfold MailAccessors._change_sender, Mail.COMObject_attr.
  destruct (Mail.COMObject self); eexists; reflexivity.
Qed.

(** ** get_category *)

Lemma append_String (c : Ascii.ascii) (a b : string) :
  String c a +:+ b = String c (a +:+ b).
Proof. reflexivity. Qed.

Lemma length_append (a b : string) :
  String.length (a +:+ b) = (String.length a + String.length b)%nat.
Proof.
  induction a as [|c a IH]; [reflexivity|].
  rewrite append_String. cbn [String.length]. now rewrite IH.
Qed.

Lemma starts_with_split (sep s : string) :
  starts_with sep s = true -> exists rest, s = sep +:+ rest.
Proof.
  revert s. induction sep as [|a sep IH]; intros s H.
  - now exists s.
  - destruct s as [|b s]; [discriminate|]. cbn [starts_with] in H.
    destruct (Ascii.eqb a b) eqn:Hab; [|discriminate].
    apply Ascii.eqb_eq in Hab as ->.
    destruct (IH s H) as (rest & ->). now exists rest.
Qed.

(** Passing over the rest of a separator. *)
Lemma split_scan_skip (sep t s piece : string) :
  split_scan sep (t +:+ s) (String.length t) piece = split_scan sep s 0 piece.
Proof.
  induction t as [|c t IH]; [reflexivity|].
  rewrite append_String. cbn [String.length split_scan]. exact IH.
Qed.

Lemma join_cons (sep x : string) (l : list string) :
  l <> [] -> join sep (x :: l) = x +:+ sep +:+ join sep l.
Proof. destruct l; [congruence | reflexivity]. Qed.

Lemma split_scan_join (a : Ascii.ascii) (sep' : string) (n : nat) :
  forall s piece,
    (String.length s <= n)%nat ->
    split_scan (String a sep') s 0 piece <> [] /\
    join (String a sep') (split_scan (String a sep') s 0 piece) = piece +:+ s.
Proof.
  induction n as [|n IH]; intros s piece Hlen.
  - destruct s; [|cbn in Hlen; lia]. cbn. split; [discriminate|].
    now rewrite append_EmptyString_r.
  - destruct s as [|c s].
    { cbn. split; [discriminate|]. now rewrite append_EmptyString_r. }
    cbn [split_scan].
    destruct (starts_with (String a sep') (String c s)) eqn:Hstart.
    + split; [discriminate|].
      destruct (starts_with_split _ _ Hstart) as (rest & Hrest).
      rewrite append_String in Hrest. injection Hrest as -> ->.
      replace (String.length (String a sep') - 1)%nat with (String.length sep')
        by (cbn [String.length]; lia).
      rewrite split_scan_skip.
      cbn [String.length] in Hlen. rewrite length_append in Hlen.
      destruct (IH rest EmptyString ltac:(lia)) as (Hne & Hjoin).
      rewrite join_cons by exact Hne. rewrite Hjoin.
      reflexivity.
    + cbn [String.length] in Hlen.
      destruct (IH s (piece +:+ String c EmptyString) ltac:(lia)) as (Hne & Hjoin).
      split; [exact Hne|]. rewrite Hjoin, append_assoc. reflexivity.
Qed.

(** X22: with a handle and a non-empty separator, [get_category] returns a
    non-empty list whose join with the separator is the item's [Categories]
    string; for an item without categories that list is [['']], not the
    empty list. *)
Theorem get_category_joins_back {W} (items : ItemHost W) (self : Mail.t)
    (c : handle) (separator categories : string) (w : W) :
  Mail.COMObject self = Some c ->
  Categories items c w = Ok categories ->
  separator <> EmptyString ->
  exists l,
    MailAccessors.get_category items self separator w = (Ok l, w) /\
    l <> [] /\
    join separator l = categories /\
    (categories = EmptyString -> l = [EmptyString]).
Proof.
  intros Hbound Hcat Hsep.
  destruct separator as [|a sep']; [congruence|].
  exists (split_scan (String a sep') categories 0 EmptyString).
  split.
  - unfold MailAccessors.get_category, Mail.COMObject_attr. rewrite Hbound.
    erewrite bind_Ok by reflexivity.
    erewrite bind_Ok by (unfold read; now rewrite Hcat).
    reflexivity.
  - destruct (split_scan_join a sep' (String.length categories) categories
                EmptyString (Nat.le_refl _)) as (Hne & Hjoin).
    split; [exact Hne|]. split; [exact Hjoin|]. now intros ->.
Qed.

Lemma get_category_joins_back_witness :
  let self := Mail.__init__ (Some 200) in
  Mail.COMObject self = Some 200 /\
  Categories SimItems.host 200 Sim.world0 = Ok "Work; Personal" /\
  MailAccessors.default_separator <> EmptyString /\
  MailAccessors.get_category SimItems.host self MailAccessors.default_separator
    Sim.world0 = (Ok ["Work"; "Personal"], Sim.world0) /\
  join MailAccessors.default_separator ["Work"; "Personal"] = "Work; Personal".
Proof.
  cbn zeta.
  assert (Hsep : MailAccessors.default_separator <> EmptyString) by discriminate.
  split; [reflexivity|]. split; [reflexivity|]. split; [exact Hsep|].
  destruct (get_category_joins_back SimItems.host (Mail.__init__ (Some 200)) 200
              MailAccessors.default_separator "Work; Personal" Sim.world0
              eq_refl eq_refl Hsep) as (l & Hl & _ & Hjoin & _).
  assert (Hrun : MailAccessors.get_category SimItems.host (Mail.__init__ (Some 200))
                   MailAccessors.default_separator Sim.world0
                 = (Ok ["Work"; "Personal"], Sim.world0)) by reflexivity.
  split; [exact Hrun|].
  rewrite Hrun in Hl. injection Hl as <-. exact Hjoin.
Defined.

(** An empty separator is a [ValueError], as [str.split] raises it. *)
Example get_category_empty_separator :
  MailAccessors.get_category SimItems.host (Mail.__init__ (Some 200)) EmptyString
    Sim.world0
  = (Raise (PyException "ValueError" "empty separator"), Sim.world0).
Proof. reflexivity. Qed.

(** ** get_senton_date *)

Lemma digit_value_digit (n : Z) : 0 <= n <= 9 -> digit_value (digit n) = n.
Proof.
  intros Hn. unfold digit_value, digit.
  rewrite Ascii.nat_ascii_embedding by lia. lia.
Qed.

Lemma parse_d_m_Y_shape (d1 d2 m1 m2 y1 y2 y3 y4 : Ascii.ascii) :
  parse_d_m_Y
    (String d1 (String d2 EmptyString) +:+ "." +:+
     String m1 (String m2 EmptyString) +:+ "." +:+
     String y1 (String y2 (String y3 (String y4 EmptyString))))
  = Some (10 * digit_value d1 + digit_value d2,
          10 * digit_value m1 + digit_value m2,
          1000 * digit_value y1 + 100 * digit_value y2
          + 10 * digit_value y3 + digit_value y4).
Proof. reflexivity. Qed.

(** X23: for a message sent in a year of four digits, [get_senton_date] is
    the ten characters [dd.mm.yyyy] of the day, month and year of [SentOn]:
    read back as decimal numbers they are that date, whatever the time of
    day. *)
Theorem get_senton_date_reads_back {W} (items : ItemHost W) (self : Mail.t)
    (c : handle) (d : Datetime.t) (w : W) :
  Mail.COMObject self = Some c ->
  SentOn items c w = Ok d ->
  1 <= Datetime.day d <= 31 ->
  1 <= Datetime.month d <= 12 ->
  1000 <= Datetime.year d <= 9999 ->
  exists s,
    MailAccessors.get_senton_date items self w = (Ok s, w) /\
    String.length s = 10%nat /\
    parse_d_m_Y s = Some (Datetime.day d, Datetime.month d, Datetime.year d).
Proof.
  intros Hbound Hsent Hday Hmonth Hyear.
  exists (strftime_d_m_Y d). split.
  { unfold MailAccessors.get_senton_date, Mail.COMObject_attr. rewrite Hbound.
    erewrite bind_Ok by reflexivity.
    erewrite bind_Ok by (unfold read; now rewrite Hsent).
    reflexivity. }
  split; [reflexivity|].
  unfold strftime_d_m_Y, two_digits, four_digits.
  rewrite parse_d_m_Y_shape.
  rewrite !digit_value_digit by (Z.div_mod_to_equations; lia).
  do 3 f_equal; Z.div_mod_to_equations; lia.
Qed.

Lemma get_senton_date_reads_back_witness :
  let self := Mail.__init__ (Some 200) in
  Mail.COMObject self = Some 200 /\
  SentOn SimItems.host 200 Sim.world0 = Ok (Datetime.mk 2024 3 5 9 30 0) /\
  MailAccessors.get_senton_date SimItems.host self Sim.world0
    = (Ok "05.03.2024", Sim.world0) /\
  parse_d_m_Y "05.03.2024" = Some (5, 3, 2024).
Proof.
  cbn zeta. split; [reflexivity|]. split; [reflexivity|].
  destruct (get_senton_date_reads_back SimItems.host (Mail.__init__ (Some 200)) 200
              (Datetime.mk 2024 3 5 9 30 0) Sim.world0 eq_refl eq_refl)
    as (s & Hs & _ & Hparse); cbn; try lia.
  assert (Hrun : MailAccessors.get_senton_date SimItems.host (Mail.__init__ (Some 200))
                   Sim.world0 = (Ok "05.03.2024", Sim.world0)) by reflexivity.
  split; [exact Hrun|].
  rewrite Hrun in Hs. injection Hs as <-. exact Hparse.
Defined.

(** [str.split] on some telling inputs. *)
Example split_examples :
  split "a; b; c" "; " = Ok ["a"; "b"; "c"] /\
  split "aaa" "aa" = Ok [EmptyString; "a"] /\
  split "a;;b" ";" = Ok ["a"; EmptyString; "b"] /\
  split ";a;" ";" = Ok [EmptyString; "a"; EmptyString] /\
  split "abc" "; " = Ok ["abc"] /\
  split EmptyString "; " = Ok [EmptyString].
Proof. repeat split. Qed.

(** ** Recipients, further *)

Lemma mail_address_loop_raises {W} (before after : list Recipient.t)
    (r : Recipient.t) (w : W) :
  Forall (fun x => Recipient.Resolved x = true ->
                   is_Some (Recipient.GetExchangeUser x)) before ->
  Recipient.Resolved r = true ->
  Recipient.GetExchangeUser r = None ->
  Mail.mail_address_loop (before ++ r :: after) w =
    mkRun (omap smtp_address (List.filter Recipient.Resolved before))
          (map diagnostic (List.filter unresolved before))
          (Raise (NoneType_has_no_attribute "PrimarySmtpAddress")) w.
Proof.
  intros Hbefore Hres Huser. induction Hbefore as [|x before Hx _ IH].
  - cbn [app Mail.mail_address_loop]. unfold Mail.check_valid_mail_address.
    now rewrite Hres, Huser.
  - cbn [app Mail.mail_address_loop List.filter].
    unfold Mail.check_valid_mail_address, unresolved at 1.
    destruct (Recipient.Resolved x) eqn:Hrx; cbn [negb].
    + destruct (Hx eq_refl) as [user Hu]. rewrite Hu, IH.
      assert (Hsmtp : smtp_address x = Some (ExchangeUser.PrimarySmtpAddress user))
        by (unfold smtp_address; now rewrite Hu).
      cbn [omap list_omap]. rewrite Hsmtp. reflexivity.
    + rewrite IH. reflexivity.
Qed.

Lemma address_comprehension_raises (before after : list Recipient.t)
    (r : Recipient.t) :
  Forall (fun x => Recipient.Resolved x = true ->
                   is_Some (Recipient.GetExchangeUser x)) before ->
  Recipient.Resolved r = true ->
  Recipient.GetExchangeUser r = None ->
  Mail.address_comprehension (before ++ r :: after)
  = Raise (NoneType_has_no_attribute "Name").
Proof.
  intros Hbefore Hres Huser. induction Hbefore as [|x before Hx _ IH].
  - cbn [app Mail.address_comprehension]. unfold Mail.check_valid_mail_address.
    now rewrite Hres, Huser.
  - cbn [app Mail.address_comprehension].
    unfold Mail.check_valid_mail_address.
    destruct (Recipient.Resolved x) eqn:Hrx.
    + destruct (Hx eq_refl) as [user Hu]. rewrite Hu, IH. reflexivity.
    + exact IH.
Qed.

(** X24: a recipient that resolved but is not an Exchange user (the host
    answers [GetExchangeUser()] with [Nothing]) makes both functions raise
    [AttributeError]: [get_recipients_mail_address] has by then yielded the
    addresses of the resolved recipients before it, [get_recipients_address]
    returns no list at all. *)
Theorem resolved_non_exchange_recipient_raises {W} (host : ComHost W)
    (self : Mail.t) (c : handle) (w : W)
    (before after : list Recipient.t) (r : Recipient.t) :
  Mail.COMObject self = Some c ->
  MailRecipients host c w = Ok (before ++ r :: after) ->
  Forall (fun x => Recipient.Resolved x = true ->
                   is_Some (Recipient.GetExchangeUser x)) before ->
  Recipient.Resolved r = true ->
  Recipient.GetExchangeUser r = None ->
  let addresses := Mail.get_recipients_mail_address host self w in
  let names := Mail.get_recipients_address host self w in
  yielded addresses = omap smtp_address (List.filter Recipient.Resolved before) /\
  outcome addresses = Raise (NoneType_has_no_attribute "PrimarySmtpAddress") /\
  yielded names = [] /\
  outcome names = Raise (NoneType_has_no_attribute "Name").
Proof.
  intros Hbound Hrs Hbefore Hres Huser. cbn zeta.
  unfold Mail.get_recipients_mail_address, Mail.get_recipients_address.
  rewrite Hbound, Hrs.
  rewrite (mail_address_loop_raises before after r w Hbefore Hres Huser),
          (address_comprehension_raises before after r Hbefore Hres Huser).
  repeat split.
Qed.

Lemma resolved_non_exchange_recipient_raises_witness :
  let external := Recipient.mk "Bob" true "bob@elsewhere.org" None in
  let w := Sim.mkWorld [] None 0 [] [] [] [Sim.alice; external; Sim.ghost] [] in
  let self := Mail.__init__ (Some 200) in
  Mail.COMObject self = Some 200 /\
  MailRecipients Sim.host 200 w = Ok ([Sim.alice] ++ external :: [Sim.ghost]) /\
  Recipient.Resolved external = true /\
  Recipient.GetExchangeUser external = None /\
  yielded (Mail.get_recipients_mail_address Sim.host self w) = ["alice@corp.com"] /\
  outcome (Mail.get_recipients_mail_address Sim.host self w)
    = Raise (NoneType_has_no_attribute "PrimarySmtpAddress") /\
  yielded (Mail.get_recipients_address Sim.host self w) = [] /\
  outcome (Mail.get_recipients_address Sim.host self w)
    = Raise (NoneType_has_no_attribute "Name").
Proof.
  cbn zeta.
  split; [reflexivity|]. split; [reflexivity|].
  split; [reflexivity|]. split; [reflexivity|].
  apply (resolved_non_exchange_recipient_raises Sim.host (Mail.__init__ (Some 200)) 200
           (Sim.mkWorld [] None 0 [] [] []
              [Sim.alice; Recipient.mk "Bob" true "bob@elsewhere.org" None; Sim.ghost] [])
           [Sim.alice] [Sim.ghost]
           (Recipient.mk "Bob" true "bob@elsewhere.org" None)).
  - reflexivity.
  - reflexivity.
  - repeat constructor. cbn. eauto.
  - reflexivity.
  - reflexivity.
Defined.

(** ** get_default_outlook_signature *)

(** X25: [get_default_outlook_signature] never touches the instances: the
    transient item is not stored in [self.mail].  When it returns, the text
    is what the host gave for [HTMLBody] after displaying a new item, and the
    item was then closed with [Close(1)]; when reading [HTMLBody] raises, the
    item is left displayed, no [Close] being issued. *)
Theorem signature_uses_transient_item {W} (host : ComHost W) (items : ItemHost W)
    (self : nat) (p p' : OutlookAPI.Process W) (r : result string) :
  OutlookAPIAccessors.get_default_outlook_signature host items self p = (r, p') ->
  OutlookAPI.instances p' = OutlookAPI.instances p /\
  (forall signature,
     r = Ok signature ->
     exists outlook mail w1 w2,
       OutlookAPI.instances p !! self ≫= OutlookAPI.outlook = Some outlook /\
       CreateItem host outlook 0 (OutlookAPI.world p) = (Ok mail, w1) /\
       MailInvoke host mail Display w1 = (Ok tt, w2) /\
       HTMLBody items mail w2 = Ok signature /\
       MailInvoke host mail (Close 1) w2 = (Ok tt, OutlookAPI.world p')) /\
  (forall outlook mail w1 w2 e,
     OutlookAPI.instances p !! self ≫= OutlookAPI.outlook = Some outlook ->
     CreateItem host outlook 0 (OutlookAPI.world p) = (Ok mail, w1) ->
     MailInvoke host mail Display w1 = (Ok tt, w2) ->
     HTMLBody items mail w2 = Raise e ->
     r = Raise e /\ OutlookAPI.world p' = w2).
Proof.
  intros H. split; [|split].
  - assert (Hkeep : forall q rq q',
              OutlookAPIAccessors.get_default_outlook_signature host items self q
                = (rq, q') ->
              OutlookAPI.instances q' = OutlookAPI.instances q).
    { unfold OutlookAPIAccessors.get_default_outlook_signature, bind,
        OutlookAPI.attr, OutlookAPI.host_call, read, ret.
      intros q rq q'.
      destruct (OutlookAPI.instances q !! self ≫= OutlookAPI.outlook) as [outlook|];
        [|intros Hq; now inversion Hq].
      cbn [OutlookAPI.world OutlookAPI.instances OutlookAPI._outlookapi].
      destruct (CreateItem host outlook 0 (OutlookAPI.world q)) as [[mail|e] w1];
        [|intros Hq; now inversion Hq].
      cbn [OutlookAPI.world OutlookAPI.instances OutlookAPI._outlookapi].
      destruct (MailInvoke host mail Display w1) as [[[]|e] w2];
        [|intros Hq; now inversion Hq].
      cbn [OutlookAPI.world OutlookAPI.instances OutlookAPI._outlookapi].
      destruct (HTMLBody items mail w2) as [signature|e];
        [|intros Hq; now inversion Hq].
      cbn [OutlookAPI.world OutlookAPI.instances OutlookAPI._outlookapi].
      destruct (MailInvoke host mail (Close 1) w2) as [[[]|e] w3];
        intros Hq; now inversion Hq. }
    exact (Hkeep p r p' H).
  - intros signature ->.
    unfold OutlookAPIAccessors.get_default_outlook_signature in H.
    apply bind_inv_Ok in H as (outlook & p1 & Ha & H).
    apply attr_inv in Ha as (-> & Ho).
    apply bind_inv_Ok in H as (mail & p2 & Hc & H).
    apply host_call_inv in Hc as (Hc & _ & _).
    apply bind_inv_Ok in H as ([] & p3 & Hd & H).
    apply host_call_inv in Hd as (Hd & _ & _).
    apply bind_inv_Ok in H as (sig & p4 & Hb & H).
    apply host_call_inv in Hb as (Hb & _ & _).
    unfold read in Hb. injection Hb as Hb Hw4.
    apply bind_inv_Ok in H as ([] & p5 & Hcl & H).
    apply host_call_inv in Hcl as (Hcl & _ & _).
    unfold ret in H. injection H as -> ->.
    exists outlook, mail, (OutlookAPI.world p2), (OutlookAPI.world p3).
    rewrite <- Hw4 in Hcl. now repeat split.
  - intros outlook mail w1 w2 e Ho Hc Hd Hb.
    unfold OutlookAPIAccessors.get_default_outlook_signature, bind,
      OutlookAPI.attr, OutlookAPI.host_call, read, ret in H.
    rewrite Ho in H. cbn [OutlookAPI.world] in H. rewrite Hc in H.
    cbn [OutlookAPI.world] in H. rewrite Hd in H.
    cbn [OutlookAPI.world] in H. rewrite Hb in H.
    inversion H; subst. now split.
Qed.

Lemma signature_uses_transient_item_witness :
  let p := (OutlookAPI.call Sim.host "me@corp.com" Sim.process0).2 in
  let run := OutlookAPIAccessors.get_default_outlook_signature
               Sim.host SimItems.host 0 p in
  run.1 = Ok "<p>Regards</p>" /\
  OutlookAPI.instances run.2 = OutlookAPI.instances p /\
  Sim.calls (OutlookAPI.world run.2) = [(200, Close 1); (200, Display)].
Proof.
  cbn zeta.
  destruct (signature_uses_transient_item Sim.host SimItems.host 0
              (OutlookAPI.call Sim.host "me@corp.com" Sim.process0).2
              (OutlookAPIAccessors.get_default_outlook_signature Sim.host SimItems.host 0
                 (OutlookAPI.call Sim.host "me@corp.com" Sim.process0).2).2
              (OutlookAPIAccessors.get_default_outlook_signature Sim.host SimItems.host 0
                 (OutlookAPI.call Sim.host "me@corp.com" Sim.process0).2).1)
    as (Hinst & _ & _).
  - apply surjective_pairing.
  - split; [vm_compute; reflexivity|]. split; [exact Hinst|]. vm_compute. reflexivity.
Defined.
